(** * air_quality_crawler.py: a shallow embedding of [AirQualityCrawler]

    The crawler of [src/air_quality_crawler.py] is a two-phase pipeline:
    [get_html] fetches a page with bounded exponential-backoff retry,
    [parse_cities] and [parse_stations] scrape a parsed page, and
    [crawl_phase2] visits every city and accumulates a dictionary.

    Modelling choices.
    - A Python [str] is a Rocq [string] holding its UTF-8 bytes.
    - The three library calls the crawler relies on are external: the
      [html.parser] front end of [BeautifulSoup], [requests.get] and
      [urllib.parse.urljoin].  They are the variables of section
      [Crawler]; everything downstream of them (tree queries, retry,
      deduplication, dictionaries) is written out.
    - A parsed page is a tree of [NavigableString]s and [Tag]s; comments,
      doctypes and namespace prefixes are left out.
    - Console output and sleeps are recorded as a trace of [event]s. *)

From Stdlib Require Import String Ascii List Arith Lia.
From stdpp Require Import gmap strings list fin_maps pretty.
From Equations Require Import Equations.
Import ListNotations.
Local Open Scope string_scope.
Local Open Scope list_scope.
Set Warnings "-register-all".

(** ** Python strings *)

Module PyStr.

(** [s.startswith(p)]. *)
Definition startswith (s p : string) : bool := String.prefix p s.

(** [sub in s]. *)
Fixpoint contains (sub s : string) : bool :=
  String.prefix sub s
  || match s with
     | EmptyString => false
     | String _ rest => contains sub rest
     end.

Definition chr (n : nat) : string := String (ascii_of_nat n) EmptyString.
Definition chr2 (a b : nat) : string := String (ascii_of_nat a) (chr b).
Definition chr3 (a b c : nat) : string := String (ascii_of_nat a) (chr2 b c).

(** The code points for which [str.isspace] holds, as UTF-8:
    U+0009..U+000D, U+001C..U+0020, U+0085, U+00A0, U+1680,
    U+2000..U+200A, U+2028, U+2029, U+202F, U+205F, U+3000. *)
Definition whitespace : list string :=
  map chr [9; 10; 11; 12; 13; 28; 29; 30; 31; 32]
  ++ [chr2 194 133; chr2 194 160; chr3 225 154 128]
  ++ map (chr3 226 128) [128; 129; 130; 131; 132; 133; 134; 135; 136; 137; 138]
  ++ [chr3 226 128 168; chr3 226 128 169; chr3 226 128 175;
      chr3 226 129 159; chr3 227 128 128].

Fixpoint drop (n : nat) (s : string) : string :=
  match n, s with
  | S n', String _ rest => drop n' rest
  | _, _ => s
  end.

(** Removes one leading token of [toks], if there is one. *)
Fixpoint eat (toks : list string) (s : string) : option string :=
  match toks with
  | [] => None
  | t :: toks' =>
      if String.prefix t s then Some (drop (String.length t) s)
      else eat toks' s
  end.

Fixpoint eat_all (fuel : nat) (toks : list string) (s : string) : string :=
  match fuel with
  | 0 => s
  | S fuel' =>
      match eat toks s with
      | Some rest => eat_all fuel' toks rest
      | None => s
      end
  end.

Definition lstrip (s : string) : string :=
  eat_all (String.length s) whitespace s.

Definition rstrip (s : string) : string :=
  String.rev (eat_all (String.length s) (map String.rev whitespace) (String.rev s)).

(** [s.strip()]. *)
Definition strip (s : string) : string := rstrip (lstrip s).

(** [re.match(r"^[A-Z]\.", s)]: an upper-case ASCII letter, then a dot. *)
Definition is_upper (c : ascii) : bool :=
  (65 <=? nat_of_ascii c)%nat && (nat_of_ascii c <=? 90)%nat.

Definition match_letter_dot (s : string) : bool :=
  match s with
  | String c (String d _) => is_upper c && Ascii.eqb d "."
  | _ => false
  end.

(** [str(n)] for an [int]. *)
Definition of_nat (n : nat) : string := pretty n.
Definition of_Z (z : Z) : string := pretty z.

End PyStr.

(** ** Exceptions and the body of a [try] block *)

Inductive exn : Type :=
| KeyError (key : string)          (* [tag[key]] on a missing attribute *)
| ParserError (msg : string)       (* raised by the markup parser *)
| ValueError (msg : string).       (* raised by [urljoin] on a URL it cannot split *)

(** [str(e)]: a [KeyError] shows the [repr] of its key. *)
Definition str_exn (e : exn) : string :=
  match e with
  | KeyError key => "'" +:+ key +:+ "'"
  | ParserError msg => msg
  | ValueError msg => msg
  end.

Inductive result (A : Type) : Type :=
| Ok (a : A)
| Raise (e : exn).
Arguments Ok {A} a.
Arguments Raise {A} e.

#[global] Instance result_ret : MRet result := fun A a => Ok a.
#[global] Instance result_bind : MBind result := fun A B k r =>
  match r with
  | Ok a => k a
  | Raise e => Raise e
  end.

(** A [for] loop whose body may raise, threading the loop's variable. *)
Fixpoint for_each {A S} (l : list A) (body : A -> S -> result S) (s : S) : result S :=
  match l with
  | [] => Ok s
  | a :: l' => s' ← body a s; for_each l' body s'
  end.

(** ** The parsed page *)

Inductive node : Type :=
| NavigableString (s : string)
| Tag (name : string) (attrs : gmap string string) (contents : list node).

Module Soup.

Definition is_tag (n : node) : bool :=
  match n with Tag _ _ _ => true | NavigableString _ => false end.

Definition has_name (names : list string) (n : node) : bool :=
  match n with
  | Tag name _ _ => bool_decide (name ∈ names)
  | NavigableString _ => false
  end.

(** Document-order walk below [n].  Every descendant comes with its
    parent and with the siblings that follow that parent; [sibs] are
    the siblings following [n] itself. *)
Fixpoint walk (sibs : list node) (n : node) : list (node * (node * list node)) :=
  match n with
  | NavigableString _ => []
  | Tag _ _ cs =>
      (fix go (l : list node) : list (node * (node * list node)) :=
         match l with
         | [] => []
         | c :: r => (c, (n, sibs)) :: walk r c ++ go r
         end) cs
  end.

Definition descendants (n : node) : list node := map fst (walk [] n).

(** [n.find_all(name)] and [n.find_all([name1, name2])]. *)
Definition find_all_in (names : list string) (n : node) : list node :=
  List.filter (has_name names) (descendants n).
Definition find_all (name : string) (n : node) : list node :=
  find_all_in [name] n.

(** [n.find(name)]. *)
Definition find (name : string) (n : node) : option node :=
  head (find_all name n).

(** [n.text]: all the strings below [n], concatenated. *)
Fixpoint text (n : node) : string :=
  match n with
  | NavigableString s => s
  | Tag _ _ cs =>
      (fix go (l : list node) : string :=
         match l with
         | [] => ""
         | c :: r => text c +:+ go r
         end) cs
  end.

(** [n.text.strip()]. *)
Definition text_strip (n : node) : string := PyStr.strip (text n).

(** [n.string]: the single string below [n], if [n] has exactly one
    child and that child has one. *)
Fixpoint string_of (n : node) : option string :=
  match n with
  | NavigableString s => Some s
  | Tag _ _ [c] => string_of c
  | Tag _ _ _ => None
  end.

(** [n[key]]. *)
Definition getitem (n : node) (key : string) : result string :=
  match n with
  | Tag _ attrs _ =>
      match attrs !! key with
      | Some v => Ok v
      | None => Raise (KeyError key)
      end
  | NavigableString _ => Raise (KeyError key)   (* not reached: hits of [find_all] are tags *)
  end.

(** [soup.find_all(name, string=f)], each hit with its [.parent]. *)
Definition find_all_string_parents
    (name : string) (f : option string -> bool) (soup : node) : list node :=
  map (fun e => fst (snd e))
      (List.filter (fun e => has_name [name] (fst e) && f (string_of (fst e)))
              (walk [] soup)).

(** [soup.find(string=f)]: the first string satisfying [f], given by
    its [.parent] and the siblings that follow that parent. *)
Definition find_string (f : option string -> bool) (soup : node)
    : option (node * list node) :=
  head (map snd
          (List.filter (fun e => match fst e with
                            | NavigableString s => f (Some s)
                            | Tag _ _ _ => false
                            end)
                  (walk [] soup))).

(** [n.find_next_siblings()] keeps the tags among the following siblings. *)
Definition next_sibling_tags (sibs : list node) : list node :=
  List.filter is_tag sibs.

End Soup.

(** ** Data model *)

(** A discovered city: [(city_name, city_url)]. *)
Definition city : Type := string * string.

(** One monitoring station: a [dict] from column label to cell text. *)
Abbreviation station := (gmap string string).

(** What the program does to the outside world, in order. *)
Inductive event : Type :=
| Print (line : string)       (* [print(line)] *)
| SleepUniform                (* [time.sleep(random.uniform(0.5, 1.5))] *)
| Sleep (seconds : nat)       (* [time.sleep(seconds)] *)
| Get (url : string).         (* [requests.get(url, ...)] *)

(** What [requests.get] comes back with. *)
Inductive response : Type :=
| Response (status_code : Z) (text : string)
| RequestException (msg : string).

(** The state of a run: how many requests went out, and what happened. *)
Record world : Type := World { requests_made : nat; trace : list event }.

(** A computation that acts on the world. *)
Definition Run (A : Type) : Type := world -> A * world.

#[global] Instance Run_ret : MRet Run := fun A a w => (a, w).
#[global] Instance Run_bind : MBind Run := fun A B k m w =>
  let '(a, w') := m w in k a w'.

Definition emit (e : event) : Run unit := fun w =>
  (tt, World (requests_made w) (trace w ++ [e])).

(** A [for] loop that only acts on the world. *)
Fixpoint for_each_emit {A} (l : list A) (body : A -> Run unit) : Run unit :=
  match l with
  | [] => mret tt
  | a :: l' => _ ← body a; for_each_emit l' body
  end.

(** A computation that acts on the world and may raise; the world it
    leaves is the one reached when it returned or raised. *)
Definition Raising (A : Type) : Type := world -> result A * world.

#[global] Instance Raising_ret : MRet Raising := fun A a w => (Ok a, w).
#[global] Instance Raising_bind : MBind Raising := fun A B k m w =>
  match m w with
  | (Ok a, w') => k a w'
  | (Raise e, w') => (Raise e, w')
  end.

(** A computation that cannot raise, and a value that may have been
    raised instead. *)
Definition lift {A} (m : Run A) : Raising A := fun w =>
  let '(a, w') := m w in (Ok a, w').
Definition of_result {A} (r : result A) : Raising A := fun w => (r, w).

(** A [for] loop that acts on the world and may raise. *)
Fixpoint for_each_raising {A} (l : list A) (body : A -> Raising unit) : Raising unit :=
  match l with
  | [] => mret tt
  | a :: l' => _ ← body a; for_each_raising l' body
  end.

(** Set by [__init__]. *)
Definition base_url : string := "https://www.air-level.com".
Definition max_retries : nat := 3.

Section Crawler.

(** The arguments of [__init__]. *)
Variables class_name name student_id : string.

(** [BeautifulSoup(html, "html.parser")]: the root of the parsed page,
    unless the parser raises. *)
Variable BeautifulSoup : string -> result node.

(** [requests.get(url, headers=..., timeout=10)] as the [n]-th request
    of the run, counted from 0. *)
Variable requests_get : string -> nat -> response.

(** [urljoin(base, url)]: the joined URL, unless [urljoin] raises, as
    it does with [ValueError] on a URL it cannot split. *)
Variable urljoin : string -> string -> result string.

(** *** [parse_cities] *)

(** [lambda text: text and re.match(r"^[A-Z]\.", text.strip())] *)
Definition letter_paragraph (text : option string) : bool :=
  match text with
  | Some t => negb (String.eqb t "") && PyStr.match_letter_dot (PyStr.strip t)
  | None => false
  end.

(** [lambda text: text and "重点城市" in text] *)
Definition key_cities_text (text : option string) : bool :=
  match text with
  | Some t => negb (String.eqb t "") && PyStr.contains "重点城市" t
  | None => false
  end.

(** [any(name == city_name for name, _ in cities)] *)
Definition already_added (city_name : string) (cities : list city) : bool :=
  existsb (fun c => String.eqb (fst c) city_name) cities.

(** Lines 98-107: every link of the parent of every letter paragraph;
    [if city_section] always holds, a tag being truthy. *)
Definition letter_sections (soup : node) (cities : list city) : result (list city) :=
  for_each (Soup.find_all_string_parents "p" letter_paragraph soup)
    (fun city_section cities =>
       for_each (Soup.find_all "a" city_section)
         (fun link cities =>
            let city_name := Soup.text_strip link in
            city_url ← Soup.getitem link "href";
            mret (cities ++ [(city_name, city_url)]))
         cities)
    cities.

(** Lines 110-122: the links of the siblings after the parent of the
    first string that mentions the key cities. *)
Definition key_cities (soup : node) (cities : list city) : result (list city) :=
  match Soup.find_string key_cities_text soup with
  | Some (key_cities_parent, sibs) =>
      for_each (Soup.next_sibling_tags sibs)
        (fun a cities =>
           for_each (Soup.find_all "a" a)
             (fun link cities =>
                let city_name := Soup.text_strip link in
                city_url ← Soup.getitem link "href";
                if negb (already_added city_name cities)
                then mret (cities ++ [(city_name, city_url)])
                else mret cities)
             cities)
        cities
  | None => mret cities
  end.

(** Lines 125-135: the first link of every row but the first, of
    every table. *)
Definition ranking_tables (soup : node) (cities : list city) : result (list city) :=
  for_each (Soup.find_all "table" soup)
    (fun table cities =>
       for_each (tail (Soup.find_all "tr" table))
         (fun row cities =>
            match Soup.find "a" row with
            | Some city_link =>
                let city_name := Soup.text_strip city_link in
                city_url ← Soup.getitem city_link "href";
                if negb (already_added city_name cities)
                then mret (cities ++ [(city_name, city_url)])
                else mret cities
            | None => mret cities
            end)
         cities)
    cities.

(** Line 138: [url if url.startswith("/") else f"/{url}"]. *)
Definition normalize_url (url : string) : string :=
  if PyStr.startswith url "/" then url else "/" +:+ url.

(** Lines 93-135, the list before line 138 rebinds it. *)
Definition collect_cities (soup : node) : result (list city) :=
  cities ← letter_sections soup [];
  cities ← key_cities soup cities;
  ranking_tables soup cities.

(** The body of the [try] of [parse_cities]. *)
Definition parse_cities_try (html : string) : result (list city) :=
  soup ← BeautifulSoup html;
  cities ← collect_cities soup;
  mret (map (fun c => (fst c, normalize_url (snd c))) cities).

(** [parse_cities(html)]: the lines printed and the list returned. *)
Definition parse_cities (html : string) : list string * list city :=
  if String.eqb html "" then
    (["HTML内容为空，无法解析城市列表"], [])
  else
    match parse_cities_try html with
    | Ok cities => ([], cities)
    | Raise e => (["解析城市列表时发生异常: " +:+ str_exn e], [])
    end.

(** *** [parse_stations] *)

(** [cols[i].text.strip()], for [i] in range. *)
Definition cell (cols : list node) (i : nat) : string :=
  match cols !! i with
  | Some col => Soup.text_strip col
  | None => ""
  end.

(** Lines 185-192: the record read off the header row. *)
Definition header_record (headers : list string) (cols : list node) : station :=
  fold_left
    (fun (station_data : station) '(i, col) =>
       if (i <? length headers)%nat then
         let header := default "" (headers !! i) in
         let value := Soup.text_strip col in
         <[header := value]> station_data
       else station_data)
    (combine (seq 0 (length cols)) cols)
    ∅.

(** Lines 196-212: the record with the default column names. *)
Definition default_record (cols : list node) : station :=
  let station_name := cell cols 0 in
  let aqi := cell cols 1 in
  let air_quality := cell cols 2 in
  let pm25 := if (3 <? length cols)%nat then cell cols 3 else "N/A" in
  let pm10 := if (4 <? length cols)%nat then cell cols 4 else "N/A" in
  let main_pollutant := if (5 <? length cols)%nat then cell cols 5 else "N/A" in
  <["首要污染物" := main_pollutant]>
    (<["PM10" := pm10]>
       (<["PM2.5" := pm25]>
          (<["空气质量等级" := air_quality]>
             (<["AQI" := aqi]>
                (<["监测站" := station_name]> ∅))))).

(** Lines 183-214: one iteration of the loop over the data rows. *)
Definition station_row (headers : list string) (stations : list station) (row : node)
    : list station :=
  let cols := Soup.find_all "td" row in
  if (3 <=? length cols)%nat then
    let station_data := header_record headers cols in
    let station_data :=
      if bool_decide (station_data = ∅) then default_record cols else station_data in
    stations ++ [station_data]
  else stations.

(** The body of the [try] of [parse_stations]. *)
Definition parse_stations_try (html city_name : string)
    : result (list string * list station) :=
  soup ← BeautifulSoup html;
  match Soup.find_all "table" soup with
  | [] => mret (["在城市 " +:+ city_name +:+ " 页面中未找到表格"], [])
  | table :: _ =>
      match Soup.find_all "tr" table with
      | [] | [_] =>                                   (* [len(rows) <= 1] *)
          mret (["城市 " +:+ city_name +:+ " 的监测站表格内容不足"], [])
      | row0 :: data_rows =>
          let headers :=
            map (fun th => Soup.text_strip th)
                (Soup.find_all_in ["th"; "td"] row0) in
          mret ([], fold_left (station_row headers) data_rows [])
      end
  end.

(** [parse_stations(html, city_name)]: the lines printed and the list
    returned. *)
Definition parse_stations (html city_name : string) : list string * list station :=
  if String.eqb html "" then
    (["HTML内容为空，无法解析城市 " +:+ city_name +:+ " 的监测站数据"], [])
  else
    match parse_stations_try html city_name with
    | Ok r => r
    | Raise e =>
        (["解析城市 " +:+ city_name +:+ " 的监测站数据时发生异常: " +:+ str_exn e], [])
    end.

(** *** [get_html] *)

(** [requests.get(url, ...)] as the next request of the run. *)
Definition request (url : string) : Run response := fun w =>
  (requests_get url (requests_made w),
   World (S (requests_made w)) (trace w ++ [Get url])).

Equations get_html (url : string) (retries : nat) : Run (option string)
  by wf (max_retries - retries) lt :=
  get_html url retries :=
    _ ← emit SleepUniform;
    response ← request url;
    match response with
    | Response status_code text =>
        if (status_code =? 200)%Z then mret (Some text)
        else
          _ ← emit (Print ("请求失败，状态码: " +:+ PyStr.of_Z status_code
                           +:+ "，URL: " +:+ url));
          match lt_dec retries max_retries with
          | left _ =>
              _ ← emit (Print ("正在进行第 " +:+ PyStr.of_nat (retries + 1)
                               +:+ " 次重试..."));
              _ ← emit (Sleep (2 ^ retries));
              get_html url (retries + 1)
          | right _ => mret None
          end
    | RequestException e =>
        _ ← emit (Print ("请求异常: " +:+ e +:+ "，URL: " +:+ url));
        match lt_dec retries max_retries with
        | left _ =>
            _ ← emit (Print ("正在进行第 " +:+ PyStr.of_nat (retries + 1)
                             +:+ " 次重试..."));
            _ ← emit (Sleep (2 ^ retries));
            get_html url (retries + 1)
        | right _ => mret None
        end
    end.
Next Obligation. lia. Qed.
Next Obligation. lia. Qed.

(** *** [crawl_phase2] *)

(** Lines 289-293: the line printed for one station. *)
Definition station_info (j : nat) (station : station) : string :=
  fold_left
    (fun info key =>
       match station !! key with
       | Some v => info +:+ ", " +:+ key +:+ ": " +:+ v
       | None => info
       end)
    ["AQI"; "空气质量等级"; "PM2.5"; "PM10"; "首要污染物"]
    ("  " +:+ PyStr.of_nat j +:+ ". 站点: " +:+ default "N/A" (station !! "监测站")).

(** Lines 265-295: the loop over [enumerate(cities, 1)]; [total] is
    [len(cities)] and [i] the running index.  Line 267 is outside any
    [try]: what [urljoin] raises leaves the loop. *)
Fixpoint phase2_loop (total i : nat) (cities : list city)
    (all_stations : gmap string (list station))
    : Raising (gmap string (list station)) :=
  match cities with
  | [] => mret all_stations
  | (city_name, city_url) :: rest =>
      full_url ← of_result (urljoin base_url city_url);
      _ ← lift (emit (Print ("[" +:+ PyStr.of_nat i +:+ "/" +:+ PyStr.of_nat total
                             +:+ "] 正在爬取城市: " +:+ city_name
                             +:+ " (" +:+ full_url +:+ ")")));
      html ← lift (get_html full_url 0);
      match html with
      | None | Some "" =>                                   (* [not html] *)
          _ ← lift (emit (Print ("获取城市 " +:+ city_name +:+ " 页面失败，跳过该城市")));
          phase2_loop total (S i) rest all_stations
      | Some html =>
          let '(printed, stations) := parse_stations html city_name in
          _ ← lift (for_each_emit printed (fun line => emit (Print line)));
          match stations with
          | [] =>                                           (* [not stations] *)
              _ ← lift (emit (Print ("未能解析到城市 " +:+ city_name
                                     +:+ " 的监测站数据")));
              phase2_loop total (S i) rest all_stations
          | _ =>
              let all_stations := <[city_name := stations]> all_stations in
              _ ← lift (emit (Print ("城市 " +:+ city_name +:+ " 共有 "
                                     +:+ PyStr.of_nat (length stations)
                                     +:+ " 个监测站:")));
              _ ← lift (for_each_emit (combine (seq 1 (length stations)) stations)
                          (fun js => emit (Print (station_info js.1 js.2))));
              phase2_loop total (S i) rest all_stations
          end
      end
  end.

(** [crawl_phase2(cities)]; [None] is the bare [return] of line 258. *)
Definition crawl_phase2 (cities : list city)
    : Raising (option (gmap string (list station))) :=
  _ ← lift (emit (Print (PyStr.chr 10 +:+ "阶段二：" +:+ class_name +:+ "+" +:+ name
                         +:+ "+" +:+ student_id)));
  _ ← lift (emit (Print "爬取结果："));
  match cities with
  | [] =>
      _ ← lift (emit (Print "没有城市数据可爬取"));
      mret None
  | _ =>
      _ ← lift (emit (Print ("将爬取所有 " +:+ PyStr.of_nat (length cities)
                             +:+ " 个城市的监测站数据")));
      all_stations ← phase2_loop (length cities) 1 cities ∅;
      mret (Some all_stations)
  end.

(** *** [crawl_phase1] *)

(** [crawl_phase1()]; [None] is returned at lines 230 and 237.  Line
    242 is outside any [try]: what [urljoin] raises there leaves
    [crawl_phase1], after the lines of the cities before. *)
Definition crawl_phase1 : Raising (option (list city)) :=
  _ ← lift (emit (Print ("阶段一：" +:+ class_name +:+ "+" +:+ name +:+ "+"
                         +:+ student_id)));
  _ ← lift (emit (Print "爬取结果："));
  html ← lift (get_html base_url 0);
  match html with
  | None | Some "" =>                                     (* [not html] *)
      _ ← lift (emit (Print "获取首页失败"));
      mret None
  | Some html =>
      let '(printed, cities) := parse_cities html in
      _ ← lift (for_each_emit printed (fun line => emit (Print line)));
      match cities with
      | [] =>                                             (* [not cities] *)
          _ ← lift (emit (Print "未能爬取到城市数据"));
          mret None
      | _ =>
          _ ← lift (emit (Print ("共爬取到 " +:+ PyStr.of_nat (length cities)
                                 +:+ " 个城市:")));
          _ ← for_each_raising (combine (seq 1 (length cities)) cities)
                (fun ic =>
                   full_url ← of_result (urljoin base_url ic.2.2);
                   lift (emit (Print (PyStr.of_nat ic.1 +:+ ". " +:+ ic.2.1 +:+ ": "
                                      +:+ full_url))));
          mret (Some cities)
      end
  end.

(** *** [main] *)

(** The [try] block of [main], for a crawler built with the section's
    [class_name], [name] and [student_id] where the source takes the
    defaults of [__init__]. *)
Definition main_try : Raising unit :=
  _ ← lift (emit (Print "开始执行阶段一爬取..."));
  cities ← crawl_phase1;
  _ ← match cities with
      | None | Some [] => mret tt                         (* [if cities] fails *)
      | Some cities =>
          _ ← lift (emit (Print (PyStr.chr 10 +:+ "开始执行阶段二爬取...")));
          _ ← crawl_phase2 cities;
          mret tt
      end;
  lift (emit (Print (PyStr.chr 10 +:+ "爬取完成！"))).

(** [main()]: the handler of lines 317-318 prints what was raised.  An
    interrupt from the keyboard is not part of the model, so the
    handler of lines 315-316 has no counterpart. *)
Definition main : Run unit := fun w =>
  match main_try w with
  | (Ok _, w') => (tt, w')
  | (Raise e, w') =>
      emit (Print (PyStr.chr 10 +:+ "程序执行过程中发生异常: " +:+ str_exn e)) w'
  end.

End Crawler.

(** * What the properties are stated with *)

(** ** Responses and traces *)

(** A response that does not end the retries: a status other than 200,
    or an exception of [requests]. *)
Definition failed (r : response) : Prop :=
  match r with
  | Response status_code _ => status_code ≠ 200%Z
  | RequestException _ => True
  end.

(** The line [get_html] prints for a failed response. *)
Definition failure_line (url : string) (r : response) : string :=
  match r with
  | Response status_code _ =>
      "请求失败，状态码: " +:+ PyStr.of_Z status_code +:+ "，URL: " +:+ url
  | RequestException e => "请求异常: " +:+ e +:+ "，URL: " +:+ url
  end.

Definition retry_line (retries : nat) : string :=
  "正在进行第 " +:+ PyStr.of_nat (retries + 1) +:+ " 次重试...".

(** The sleeps and requests of a trace, without what was printed. *)
Definition actions (events : list event) : list event :=
  List.filter (fun e => match e with Print _ => false | _ => true end) events.


(** ** Visits of the second phase *)

Section Visits.

Variable BeautifulSoup : string -> result node.
Variable requests_get : string -> nat -> response.
Variable urljoin : string -> string -> result string.

(** What a fetched page contributes for a city: its stations when the
    fetch gave a body and the extraction was not empty. *)
Definition extracted (html : option string) (city_name : string)
    : option (list station) :=
  match html with
  | Some html =>
      match (parse_stations BeautifulSoup html city_name).2 with
      | [] => None
      | stations => Some stations
      end
  | None => None
  end.

(** The cities of the list, visited in order from the [n]-th request
    of the run on, each with what it contributes.  What [urljoin]
    raises on the first URL it refuses is raised in place of the list:
    the cities from that one on are not visited. *)
Fixpoint visits (cities : list city) (n : nat)
    : result (list (string * option (list station))) :=
  match cities with
  | [] => mret []
  | (city_name, city_url) :: rest =>
      full_url ← urljoin base_url city_url;
      let '(html, w) := get_html requests_get full_url 0 (World n []) in
      visited ← visits rest (requests_made w);
      mret ((city_name, extracted html city_name) :: visited)
  end.

(** The mapping after one more visit. *)
Definition record_visit (all_stations : gmap string (list station))
    (visit : string * option (list station)) : gmap string (list station) :=
  match visit.2 with
  | Some stations => <[visit.1 := stations]> all_stations
  | None => all_stations
  end.

(** Every city of the list has a URL that [urljoin] joins to the base. *)
Definition all_join (cities : list city) : Prop :=
  forall c, c ∈ cities -> exists full_url, urljoin base_url c.2 = Ok full_url.

End Visits.


(** ** Pages used as concrete inputs *)

Module Pages.

Definition document (contents : list node) : node := Tag "[document]" ∅ contents.
Definition elem (name : string) (contents : list node) : node := Tag name ∅ contents.
Definition a (href text : string) : node :=
  Tag "a" {[ "href" := href ]} [NavigableString text].
Definition td (text : string) : node := elem "td" [NavigableString text].
Definition th (text : string) : node := elem "th" [NavigableString text].

(** A parser that knows one page. *)
Definition parser (soup : node) : string -> result node := fun _ => Ok soup.

(** Two letter paragraphs that share their parent. *)
Definition landing_html : string :=
  "<div><p>A.</p><a href='/air/anshan'>Anshan</a><p>B.</p><a href='/air/beijing'>Beijing</a></div>".
Definition landing : node :=
  document [elem "div" [elem "p" [NavigableString "A."]; a "/air/anshan" "Anshan";
                        elem "p" [NavigableString "B."]; a "/air/beijing" "Beijing"]].

(** One letter section whose second link has no [href]. *)
Definition anchor_html : string :=
  "<div><p>A.</p><a href='city/beijing'>Beijing</a><a name='top'>Top</a></div>".
Definition anchor : node :=
  document [elem "div" [elem "p" [NavigableString "A."]; a "city/beijing" "Beijing";
                        Tag "a" {[ "name" := "top" ]} [NavigableString "Top"]]].

(** The section of [anchor] with its links well formed. *)
Definition section_html : string :=
  "<div><p>A.</p><a href='city/beijing'>Beijing</a></div>".
Definition section : node :=
  document [elem "div" [elem "p" [NavigableString "A."]; a "city/beijing" "Beijing"]].

(** A table with a header row and nothing else. *)
Definition header_only_html : string :=
  "<table><tr><th>Station</th><th>AQI</th><th>Level</th></tr></table>".
Definition header_only : node :=
  document [elem "table" [elem "tr" [th "Station"; th "AQI"; th "Level"]]].

(** A table whose first row has no cells. *)
Definition bare_header_html : string :=
  "<table><tr></tr><tr><td>StationX</td><td>50</td><td>Good</td><td>7</td></tr></table>".
Definition bare_header : node :=
  document [elem "table" [elem "tr" [];
                          elem "tr" [td "StationX"; td "50"; td "Good"; td "7"]]].

(** A city page with one station, named as given. *)
Definition city_page (station_name : string) : node :=
  document [elem "table" [elem "tr" [th "Station"; th "AQI"; th "Level"];
                          elem "tr" [td station_name; td "50"; td "Good"]]].
Definition city_html (station_name : string) : string :=
  "<table><tr><th>Station</th><th>AQI</th><th>Level</th></tr><tr><td>"
  +:+ station_name +:+ "</td><td>50</td><td>Good</td></tr></table>".

(** A parser that knows [city_html "North"] and [city_html "South"]. *)
Definition city_parser (html : string) : result node :=
  if String.eqb html (city_html "North") then Ok (city_page "North")
  else Ok (city_page "South").

(** [urljoin] on a path that starts with one slash. *)
Definition join_rooted (base url : string) : result string := Ok (base +:+ url).

(** [urljoin] as far as the runs below need it: it refuses a path that
    opens an IPv6 host and never closes it, as in [//[]. *)
Definition join_checked (base url : string) : result string :=
  if PyStr.startswith url "//[" then Raise (ValueError "Invalid IPv6 URL")
  else Ok (base +:+ url).

(** A server that always answers 500. *)
Definition always_500 : string -> nat -> response := fun _ _ => Response 500 "".

(** A server that times out twice, then answers. *)
Definition third_time : string -> nat -> response := fun _ n =>
  if (n <? 2)%nat then RequestException "timed out" else Response 200 (city_html "North").

(** A server that lacks the page of the first city. *)
Definition first_city_down : string -> nat -> response := fun url _ =>
  if String.eqb url "https://www.air-level.com/air/anshan" then Response 404 ""
  else Response 200 (city_html "North").

(** A server with one page per path. *)
Definition two_pages : string -> nat -> response := fun url _ =>
  if String.eqb url "https://www.air-level.com/air/anshan"
  then Response 200 (city_html "North")
  else Response 200 (city_html "South").

(** The record of [city_page station_name]. *)
Definition city_record (station_name : string) : station :=
  <["Level" := "Good"]> (<["AQI" := "50"]> (<["Station" := station_name]> ∅)).

End Pages.

(** ** Retries, requests and what a run adds to the world *)

(** The events of [k] failed attempts in a row, the first of them being
    request [n] of the run and retry [retries] of the call. *)
Fixpoint retry_events (requests_get : string -> nat -> response)
    (url : string) (n retries k : nat) : list event :=
  match k with
  | 0 => []
  | S k' =>
      [SleepUniform; Get url; Print (failure_line url (requests_get url n));
       Print (retry_line retries); Sleep (2 ^ retries)]
      ++ retry_events requests_get url (S n) (retries + 1) k'
  end.

(** The seconds slept between attempts in a trace. *)
Definition backoff (events : list event) : nat :=
  list_sum (map (fun e => match e with Sleep seconds => seconds | _ => 0 end) events).

(** The URLs requested in a trace, in order. *)
Definition requested (events : list event) : list string :=
  flat_map (fun e => match e with Get url => [url] | _ => [] end) events.

(** The random pauses of a trace. *)
Definition pauses (events : list event) : nat :=
  length (List.filter (fun e => match e with SleepUniform => true | _ => false end) events).

(** [w'] is [w] after [events]: they were appended to the trace and
    their requests counted. *)
Definition extends (w w' : world) (events : list event) : Prop :=
  trace w' = trace w ++ events
  /\ requests_made w' = requests_made w + length (requested events).

(** The requests of a run that sends [k] requests in a row to each URL
    of [urls], [k] being its count in [counts]. *)
Definition request_blocks (urls : list string) (counts : list nat) : list string :=
  concat (zip_with (fun url k => replicate k url) urls counts).

(** The record [station_row] appends for a row with cells [cols]. *)
Definition row_record (headers : list string) (cols : list node) : station :=
  if bool_decide (header_record headers cols = ∅) then default_record cols
  else header_record headers cols.

(** The links the second heuristic goes through, in order: those of
    the siblings after the parent of the key-cities string. *)
Definition key_links (soup : node) : list node :=
  match Soup.find_string key_cities_text soup with
  | Some (_, sibs) => flat_map (Soup.find_all "a") (Soup.next_sibling_tags sibs)
  | None => []
  end.

(** The links the third heuristic goes through, in order: the first
    link of every row but the first, of every table. *)
Definition ranking_links (soup : node) : list node :=
  flat_map
    (fun table =>
       flat_map (fun row => option_list (Soup.find "a" row))
                (tail (Soup.find_all "tr" table)))
    (Soup.find_all "table" soup).

(** [entry] is made of the stripped text and of the href of [link]. *)
Definition link_entry (link : node) (entry : city) : Prop :=
  entry.1 = Soup.text_strip link /\ Soup.getitem link "href" = Ok entry.2.

(** One more entry, unless its name is there already. *)
Definition add_new (cities : list city) (entry : city) : list city :=
  if already_added entry.1 cities then cities else cities ++ [entry].

(** ** Walks and anchors *)

(** The walk of [Soup.walk] over the children [l] of [parent]. *)
Fixpoint walk_children (parent : node) (sibs l : list node)
    : list (node * (node * list node)) :=
  match l with
  | [] => []
  | c :: r => (c, (parent, sibs)) :: Soup.walk r c ++ walk_children parent sibs r
  end.

(** Every [a] element below [soup] carries an [href]. *)
Definition anchors_have_href (soup : node) : Prop :=
  forall d, In d (Soup.descendants soup) -> Soup.has_name ["a"] d = true ->
            exists href, Soup.getitem d "href" = Ok href.

(** Induction on a page, with the property known of the children. *)
Fixpoint node_children_ind (P : node -> Prop)
    (Hstring : forall s, P (NavigableString s))
    (Htag : forall name attrs contents, Forall P contents -> P (Tag name attrs contents))
    (n : node) : P n :=
  match n with
  | NavigableString s => Hstring s
  | Tag name attrs contents =>
      Htag name attrs contents
           ((fix children (l : list node) : Forall P l :=
               match l with
               | [] => @List.Forall_nil node P
               | c :: r =>
                   @List.Forall_cons node P c r (node_children_ind P Hstring Htag c) (children r)
               end) contents)
  end.

(** A landing page with a letter section, a key-cities region and a
    ranking table. *)
Module Landing.

Definition markup : string :=
  "<div><p>A.</p><a href='/air/anshan'>Anshan</a></div><h2>重点城市</h2><div><a href='air/beijing'>Beijing</a><a href='/air/anshan_new'>Anshan</a></div><table><tr><th>City</th></tr><tr><td><a href='air/chengdu'>Chengdu</a></td></tr></table>".
Definition soup : node :=
  Pages.document
    [Pages.elem "div" [Pages.elem "p" [NavigableString "A."];
                       Pages.a "/air/anshan" "Anshan"];
     Pages.elem "h2" [NavigableString "重点城市"];
     Pages.elem "div" [Pages.a "air/beijing" "Beijing";
                       Pages.a "/air/anshan_new" "Anshan"];
     Pages.elem "table"
       [Pages.elem "tr" [Pages.th "City"];
        Pages.elem "tr" [Pages.elem "td" [Pages.a "air/chengdu" "Chengdu"]]]].

End Landing.

(** * Properties *)

(** ** The extractors *)

Section Extractors.

Variable BeautifulSoup : string -> result node.

Lemma startswith_normalize_url url :
  PyStr.startswith (normalize_url url) "/" = true.
Proof.
  unfold normalize_url.
  destruct (PyStr.startswith url "/") eqn:E; [exact E |].
  unfold PyStr.startswith. destruct url; reflexivity.
Qed.

Lemma parse_cities_ok html soup cities :
  html ≠ "" -> BeautifulSoup html = Ok soup -> collect_cities soup = Ok cities ->
  parse_cities BeautifulSoup html
  = ([], map (fun c => (fst c, normalize_url (snd c))) cities).
Proof.
  intros Hne Hsoup Hcol. unfold parse_cities, parse_cities_try.
  apply String.eqb_neq in Hne. rewrite Hne, Hsoup. simpl. rewrite Hcol. reflexivity.
Qed.

(** C7. Every pair returned by [parse_cities] has an href that starts
    with a slash: a collected href that already does is kept as it
    is, any other gets one slash put in front. *)
Theorem parse_cities_href_rooted html :
  (forall city_name url,
      (city_name, url) ∈ (parse_cities BeautifulSoup html).2 ->
      PyStr.startswith url "/" = true)
  /\ (forall soup cities,
         html ≠ "" -> BeautifulSoup html = Ok soup -> collect_cities soup = Ok cities ->
         (parse_cities BeautifulSoup html).2
         = map (fun c => (c.1, if PyStr.startswith c.2 "/" then c.2 else "/" +:+ c.2))
               cities).
Proof.
  split.
  - intros city_name url. unfold parse_cities.
    destruct (String.eqb html ""); [intros H; inversion H |].
    unfold parse_cities_try. destruct (BeautifulSoup html) as [soup | e]; simpl;
      [| intros H; inversion H].
    destruct (collect_cities soup) as [cities | e]; simpl; [| intros H; inversion H].
    intros H. apply list_elem_of_fmap in H as [[n u] [Heq _]].
    inversion Heq; subst. apply startswith_normalize_url.
  - intros soup cities Hne Hsoup Hcol.
    rewrite (parse_cities_ok html soup cities Hne Hsoup Hcol). reflexivity.
Qed.

(** C8. [parse_stations] returns the empty list when the markup is
    empty, when the page has no table, and when the first table has
    at most one row (a header alone, or nothing). *)
Theorem parse_stations_short_table html city_name :
  (html = ""
   \/ exists soup, BeautifulSoup html = Ok soup
        /\ (Soup.find_all "table" soup = []
            \/ exists table tables,
                 Soup.find_all "table" soup = table :: tables
                 /\ length (Soup.find_all "tr" table) <= 1)) ->
  (parse_stations BeautifulSoup html city_name).2 = [].
Proof.
  intros [-> | (soup & Hsoup & Htab)]; [reflexivity |].
  unfold parse_stations. destruct (String.eqb html ""); [reflexivity |].
  unfold parse_stations_try. rewrite Hsoup. simpl.
  destruct Htab as [-> | (table & tables & -> & Hrows)]; [reflexivity |].
  destruct (Soup.find_all "tr" table) as [| row0 [| row1 rows]]; simpl in *;
    [reflexivity | reflexivity | lia].
Qed.

(** C6. Once the [try] block of an extractor is entered, whatever it
    raises is turned into one diagnostic line and the empty list:
    the extractor itself returns, and nothing collected before the
    exception is handed out. *)
Theorem extraction_failure_contained html city_name e :
  html ≠ "" ->
  (parse_cities_try BeautifulSoup html = Raise e ->
   parse_cities BeautifulSoup html
   = (["解析城市列表时发生异常: " +:+ str_exn e], []))
  /\ (parse_stations_try BeautifulSoup html city_name = Raise e ->
      parse_stations BeautifulSoup html city_name
      = (["解析城市 " +:+ city_name +:+ " 的监测站数据时发生异常: " +:+ str_exn e], [])).
Proof.
  intros Hne. apply String.eqb_neq in Hne.
  unfold parse_cities, parse_stations. rewrite Hne.
  split; intros ->; reflexivity.
Qed.

(** *** The loop over the data rows *)

Lemma fold_station_row headers rows stations :
  fold_left (station_row headers) rows stations
  = stations ++ flat_map (station_row headers []) rows.
Proof.
  revert stations. induction rows as [| row rows IH]; intros stations; simpl.
  - symmetry. apply app_nil_r.
  - rewrite IH. unfold station_row.
    destruct (3 <=? length (Soup.find_all "td" row))%nat; simpl.
    + rewrite <- app_assoc. reflexivity.
    + reflexivity.
Qed.

Lemma combine_snoc {A B} (l : list A) (k : list B) a b :
  length l = length k -> combine (l ++ [a]) (k ++ [b]) = combine l k ++ [(a, b)].
Proof.
  revert k. induction l as [| x l IH]; intros [| y k] Hlen; simpl in *;
    try discriminate; [reflexivity |].
  rewrite IH by lia. reflexivity.
Qed.

Lemma header_record_snoc headers cols col :
  header_record headers (cols ++ [col])
  = if (length cols <? length headers)%nat
    then <[default "" (headers !! length cols) := Soup.text_strip col]>
           (header_record headers cols)
    else header_record headers cols.
Proof.
  unfold header_record.
  rewrite length_app, Nat.add_1_r, seq_S, Nat.add_0_l.
  rewrite combine_snoc by (rewrite length_seq; reflexivity).
  rewrite fold_left_app. reflexivity.
Qed.

Lemma header_record_no_headers cols : header_record [] cols = ∅.
Proof.
  induction cols as [| col cols IH] using rev_ind; [reflexivity |].
  rewrite header_record_snoc. simpl. exact IH.
Qed.

Lemma header_record_non_empty headers cols :
  headers ≠ [] -> cols ≠ [] -> header_record headers cols ≠ ∅.
Proof.
  intros Hh. induction cols as [| col cols IH] using rev_ind; [congruence |].
  intros _. rewrite header_record_snoc.
  destruct (length cols <? length headers)%nat eqn:E.
  - apply insert_non_empty.
  - apply IH. apply Nat.ltb_ge in E.
    destruct cols; [| discriminate]. destruct headers; [congruence | simpl in E; lia].
Qed.

Lemma station_rows_no_headers rows :
  flat_map (station_row [] []) rows
  = map (fun row => default_record (Soup.find_all "td" row))
        (List.filter (fun row => (3 <=? length (Soup.find_all "td" row))%nat) rows).
Proof.
  induction rows as [| row rows IH]; [reflexivity |].
  cbn [flat_map List.filter]. rewrite IH. unfold station_row.
  destruct (3 <=? length (Soup.find_all "td" row))%nat; [| reflexivity].
  rewrite header_record_no_headers. reflexivity.
Qed.

(** The record made of the default column names. *)
Lemma default_record_fields cols :
  dom (default_record cols)
  = ({["监测站"; "AQI"; "空气质量等级"; "PM2.5"; "PM10"; "首要污染物"]} : gset string)
  /\ default_record cols !! "监测站" = Some (cell cols 0)
  /\ default_record cols !! "AQI" = Some (cell cols 1)
  /\ default_record cols !! "空气质量等级" = Some (cell cols 2)
  /\ default_record cols !! "PM2.5" = Some (default "N/A" (Soup.text_strip <$> cols !! 3))
  /\ default_record cols !! "PM10" = Some (default "N/A" (Soup.text_strip <$> cols !! 4))
  /\ default_record cols !! "首要污染物"
     = Some (default "N/A" (Soup.text_strip <$> cols !! 5)).
Proof.
  assert (Hcell : forall i,
             (if (i <? length cols)%nat then cell cols i else "N/A")
             = default "N/A" (Soup.text_strip <$> cols !! i)).
  { intros i. unfold cell. destruct (i <? length cols)%nat eqn:E.
    - apply Nat.ltb_lt in E. destruct (lookup_lt_is_Some_2 cols i E) as [c ->].
      reflexivity.
    - apply Nat.ltb_ge in E. rewrite (lookup_ge_None_2 cols i E). reflexivity. }
  unfold default_record. rewrite !Hcell.
  split; [rewrite !dom_insert_L, dom_empty_L; set_solver |].
  repeat split; repeat (rewrite lookup_insert_ne by discriminate);
    apply lookup_insert_eq.
Qed.

(** C3. When the first row of the first table has no header cell,
    [parse_stations] returns one record per later row with at least
    three [td] cells, in order; each such record has the six default
    keys and no other, the first three read off columns 0 to 2 and
    the last three off columns 3 to 5, or ["N/A"] where the row has
    no such column. *)
Theorem parse_stations_default_columns html city_name soup table tables row0 data_rows :
  html ≠ "" ->
  BeautifulSoup html = Ok soup ->
  Soup.find_all "table" soup = table :: tables ->
  Soup.find_all "tr" table = row0 :: data_rows ->
  Soup.find_all_in ["th"; "td"] row0 = [] ->
  (parse_stations BeautifulSoup html city_name).2
  = map (fun row => default_record (Soup.find_all "td" row))
        (List.filter (fun row => (3 <=? length (Soup.find_all "td" row))%nat) data_rows)
  /\ forall row c0 c1 c2,
      Soup.find_all "td" row !! 0 = Some c0 ->
      Soup.find_all "td" row !! 1 = Some c1 ->
      Soup.find_all "td" row !! 2 = Some c2 ->
      let cols := Soup.find_all "td" row in
      let station_data := default_record cols in
      dom station_data
      = ({["监测站"; "AQI"; "空气质量等级"; "PM2.5"; "PM10"; "首要污染物"]} : gset string)
      /\ station_data !! "监测站" = Some (Soup.text_strip c0)
      /\ station_data !! "AQI" = Some (Soup.text_strip c1)
      /\ station_data !! "空气质量等级" = Some (Soup.text_strip c2)
      /\ station_data !! "PM2.5" = Some (default "N/A" (Soup.text_strip <$> cols !! 3))
      /\ station_data !! "PM10" = Some (default "N/A" (Soup.text_strip <$> cols !! 4))
      /\ station_data !! "首要污染物"
         = Some (default "N/A" (Soup.text_strip <$> cols !! 5)).
Proof.
  intros Hne Hsoup Htab Hrows Hhead. split.
  - unfold parse_stations, parse_stations_try.
    apply String.eqb_neq in Hne. rewrite Hne, Hsoup. simpl. rewrite Htab, Hrows.
    destruct data_rows as [| row1 rows]; [reflexivity |].
    rewrite Hhead. cbn [map]. rewrite fold_station_row. cbn [app].
    apply station_rows_no_headers.
  - intros row c0 c1 c2 H0 H1 H2 cols station_data.
    destruct (default_record_fields cols) as (Hdom & F0 & F1 & F2 & F3 & F4 & F5).
    unfold cell in F0, F1, F2. subst cols. rewrite H0 in F0. rewrite H1 in F1.
    rewrite H2 in F2. repeat split; assumption.
Qed.

(** C9. The record read off the header row gives a label the text of
    the last cell, among the cells that have a header, whose header
    is that label; so it has at most as many entries as there are
    distinct labels.  It is the record [parse_stations] emits for a
    row of three cells or more when the header row has a label. *)
Theorem header_record_last_label headers cols :
  (forall label v,
      header_record headers cols !! label = Some v <->
      exists i col,
        headers !! i = Some label /\ cols !! i = Some col /\ v = Soup.text_strip col
        /\ forall j, i < j -> j < length cols -> headers !! j ≠ Some label)
  /\ size (header_record headers cols) <= size (list_to_set headers : gset string)
  /\ (forall stations row,
         headers ≠ [] -> 3 <= length (Soup.find_all "td" row) ->
         cols = Soup.find_all "td" row ->
         station_row headers stations row = stations ++ [header_record headers cols]).
Proof.
  assert (Hlast : forall label v,
             header_record headers cols !! label = Some v <->
             exists i col,
               headers !! i = Some label /\ cols !! i = Some col
               /\ v = Soup.text_strip col
               /\ forall j, i < j -> j < length cols -> headers !! j ≠ Some label).
  { intros label v. induction cols as [| c cols' IH] using rev_ind.
    - unfold header_record. simpl. rewrite lookup_empty. split; [discriminate |].
      intros (i & col & _ & Hc & _). rewrite lookup_nil in Hc. discriminate.
    - rewrite header_record_snoc. rewrite length_app. simpl length.
      destruct (length cols' <? length headers)%nat eqn:E.
      + apply Nat.ltb_lt in E.
        destruct (lookup_lt_is_Some_2 headers _ E) as [h Hh]. rewrite Hh. simpl.
        destruct (decide (h = label)) as [-> | Hneq].
        * rewrite lookup_insert_eq. split.
          -- intros [= <-]. exists (length cols'), c. repeat split; [assumption | |].
             ++ rewrite lookup_app_r by lia. rewrite Nat.sub_diag. reflexivity.
             ++ intros j ? ?. lia.
          -- intros (i & col & Hi & Hc & -> & Hj).
             destruct (decide (i = length cols')) as [-> | Hi'].
             ++ rewrite lookup_app_r in Hc by lia. rewrite Nat.sub_diag in Hc.
                injection Hc as ->. reflexivity.
             ++ apply lookup_lt_Some in Hc as Hlt. rewrite length_app in Hlt.
                simpl in Hlt. exfalso. apply (Hj (length cols')); [lia | lia | assumption].
        * rewrite lookup_insert_ne by assumption. rewrite IH. split.
          -- intros (i & col & Hi & Hc & -> & Hj). exists i, col.
             repeat split; [assumption | | ].
             ++ rewrite lookup_app_l by (eapply lookup_lt_Some; eassumption). assumption.
             ++ intros j Hij Hjl. destruct (decide (j = length cols')) as [-> | ?].
                ** rewrite Hh. congruence.
                ** apply Hj; lia.
          -- intros (i & col & Hi & Hc & -> & Hj).
             assert (i ≠ length cols') by (intros ->; congruence).
             apply lookup_lt_Some in Hc as Hlt. rewrite length_app in Hlt. simpl in Hlt.
             rewrite lookup_app_l in Hc by lia.
             exists i, col. repeat split; [assumption | assumption |].
             intros j ? ?. apply Hj; lia.
      + apply Nat.ltb_ge in E. rewrite IH. split.
        * intros (i & col & Hi & Hc & -> & Hj). exists i, col.
          repeat split; [assumption | |].
          -- rewrite lookup_app_l by (eapply lookup_lt_Some; eassumption). assumption.
          -- intros j Hij Hjl. destruct (decide (j = length cols')) as [-> | ?].
             ++ rewrite (lookup_ge_None_2 headers _ E). discriminate.
             ++ apply Hj; lia.
        * intros (i & col & Hi & Hc & -> & Hj).
          apply lookup_lt_Some in Hi as Hlt.
          rewrite lookup_app_l in Hc by lia.
          exists i, col. repeat split; [assumption | assumption |].
          intros j ? ?. apply Hj; lia. }
  split; [exact Hlast |]. split.
  - rewrite <- size_dom. apply subseteq_size. intros label Hin.
    apply elem_of_dom in Hin as [v Hv]. apply Hlast in Hv as (i & _ & Hi & _).
    apply elem_of_list_to_set. eapply list_elem_of_lookup_2. eassumption.
  - intros stations row Hh Hlen ->. unfold station_row.
    destruct (3 <=? length (Soup.find_all "td" row))%nat eqn:E;
      [| apply Nat.leb_gt in E; lia].
    rewrite bool_decide_eq_false_2; [reflexivity |].
    apply header_record_non_empty; [assumption |].
    destruct (Soup.find_all "td" row); [simpl in Hlen; lia | discriminate].
Qed.

(** *** Names already collected *)

Lemma for_each_invariant {A S} (P : S -> Prop) (l : list A) body s s' :
  (forall a t t', body a t = Ok t' -> P t -> P t') ->
  P s -> for_each l body s = Ok s' -> P s'.
Proof.
  intros Hbody. revert s. induction l as [| a l IH]; intros s Hs; simpl.
  - intros [= <-]. exact Hs.
  - destruct (body a s) as [t | e] eqn:E; simpl; [| discriminate].
    apply IH. eapply Hbody; eassumption.
Qed.

Lemma already_added_false city_name cities :
  already_added city_name cities = false -> city_name ∉ cities.*1.
Proof.
  unfold already_added. induction cities as [| [n u] cities IH]; simpl.
  - intros _ H. inversion H.
  - intros H. apply orb_false_elim in H as [Hn Hrest].
    apply String.eqb_neq in Hn. intros Hin. apply elem_of_cons in Hin as [-> | Hin].
    + congruence.
    + exact (IH Hrest Hin).
Qed.

(** The guarded append of lines 121-122 and 134-135. *)
Lemma guarded_append_unique city_name city_url (cities cities' : list city) :
  (if negb (already_added city_name cities)
   then mret (cities ++ [(city_name, city_url)])
   else mret cities) = Ok cities' ->
  NoDup cities.*1 -> NoDup cities'.*1.
Proof.
  destruct (already_added city_name cities) eqn:E; simpl; intros [= <-] Hnd.
  - exact Hnd.
  - rewrite fmap_app. apply NoDup_app. split; [exact Hnd |]. split.
    + intros x Hx Hin. simpl in Hin. apply list_elem_of_singleton in Hin as ->.
      exact (already_added_false _ _ E Hx).
    + simpl. apply NoDup_singleton.
Qed.

(** The second and the third heuristic never add a name twice. *)
Lemma later_heuristics_unique soup cities cities' :
  key_cities soup cities = Ok cities' \/ ranking_tables soup cities = Ok cities' ->
  NoDup cities.*1 -> NoDup cities'.*1.
Proof.
  pose (P := fun cs : list city => NoDup cs.*1).
  intros [H | H] Hnd; revert H.
  - unfold key_cities. destruct (Soup.find_string key_cities_text soup) as [[p sibs] |];
      [| intros [= <-]; exact Hnd].
    intros H. apply (for_each_invariant P _ _ _ _) with (3 := H); [| exact Hnd].
    intros sib t t' Hsib Ht.
    apply (for_each_invariant P _ _ _ _) with (3 := Hsib); [| exact Ht].
    intros link u u'.
    destruct (Soup.getitem link "href") as [city_url | e]; simpl; [| discriminate].
    apply guarded_append_unique.
  - unfold ranking_tables.
    intros H. apply (for_each_invariant P _ _ _ _) with (3 := H); [| exact Hnd].
    intros table t t' Htable Ht.
    apply (for_each_invariant P _ _ _ _) with (3 := Htable); [| exact Ht].
    intros row u u'.
    destruct (Soup.find "a" row) as [city_link |]; [| intros [= <-]; trivial].
    destruct (Soup.getitem city_link "href") as [city_url | e]; simpl; [| discriminate].
    apply guarded_append_unique.
Qed.

End Extractors.

(** ** The fetcher *)

Section Fetcher.

Variable requests_get : string -> nat -> response.

Lemma get_html_success url retries w text :
  requests_get url (requests_made w) = Response 200 text ->
  get_html requests_get url retries w
  = (Some text, World (S (requests_made w)) (trace w ++ [SleepUniform; Get url])).
Proof.
  intros H. rewrite get_html_equation_1.
  unfold mbind, Run_bind, emit, request. simpl. rewrite H. simpl.
  rewrite <- app_assoc. reflexivity.
Qed.

Lemma get_html_retry url retries w :
  failed (requests_get url (requests_made w)) ->
  retries < max_retries ->
  get_html requests_get url retries w
  = get_html requests_get url (retries + 1)
      (World (S (requests_made w))
             (trace w ++ [SleepUniform; Get url;
                          Print (failure_line url (requests_get url (requests_made w)));
                          Print (retry_line retries); Sleep (2 ^ retries)])).
Proof.
  intros Hfail Hlt. rewrite get_html_equation_1.
  unfold mbind, Run_bind, emit, request. simpl.
  destruct (requests_get url (requests_made w)) as [status_code text | e]; simpl in *.
  - apply Z.eqb_neq in Hfail. rewrite Hfail.
    destruct (lt_dec retries max_retries); [| contradiction].
    simpl. rewrite <- !app_assoc. reflexivity.
  - destruct (lt_dec retries max_retries); [| contradiction].
    simpl. rewrite <- !app_assoc. reflexivity.
Qed.

Lemma get_html_give_up url retries w :
  failed (requests_get url (requests_made w)) ->
  ~ retries < max_retries ->
  get_html requests_get url retries w
  = (None,
     World (S (requests_made w))
           (trace w ++ [SleepUniform; Get url;
                        Print (failure_line url (requests_get url (requests_made w)))])).
Proof.
  intros Hfail Hge. rewrite get_html_equation_1.
  unfold mbind, Run_bind, emit, request. simpl.
  destruct (requests_get url (requests_made w)) as [status_code text | e]; simpl in *.
  - apply Z.eqb_neq in Hfail. rewrite Hfail.
    destruct (lt_dec retries max_retries); [contradiction |].
    simpl. rewrite <- !app_assoc. reflexivity.
  - destruct (lt_dec retries max_retries); [contradiction |].
    simpl. rewrite <- !app_assoc. reflexivity.
Qed.

(** C2. When the four requests that follow all fail, [get_html]
    started at retry 0 sends exactly those four, sleeps 1, 2 and 4
    seconds between them, each request preceded by the random pause,
    and returns [None]. *)
Theorem get_html_retries_exhausted url w :
  (forall k, k < 4 -> failed (requests_get url (requests_made w + k))) ->
  exists events,
    get_html requests_get url 0 w
    = (None, World (requests_made w + 4) (trace w ++ events))
    /\ actions events
       = [SleepUniform; Get url; Sleep 1;
          SleepUniform; Get url; Sleep 2;
          SleepUniform; Get url; Sleep 4;
          SleepUniform; Get url].
Proof.
  intros Hfail.
  pose proof (Hfail 0 ltac:(lia)) as H0. pose proof (Hfail 1 ltac:(lia)) as H1.
  pose proof (Hfail 2 ltac:(lia)) as H2. pose proof (Hfail 3 ltac:(lia)) as H3.
  rewrite Nat.add_0_r in H0.
  replace (requests_made w + 1) with (S (requests_made w)) in H1 by lia.
  replace (requests_made w + 2) with (S (S (requests_made w))) in H2 by lia.
  replace (requests_made w + 3) with (S (S (S (requests_made w)))) in H3 by lia.
  eexists. split.
  - rewrite get_html_retry by (assumption || (unfold max_retries; lia)).
    rewrite get_html_retry by (assumption || (unfold max_retries; simpl; lia)).
    rewrite get_html_retry by (assumption || (unfold max_retries; simpl; lia)).
    rewrite get_html_give_up by (assumption || (unfold max_retries; simpl; lia)).
    cbn [requests_made trace]. rewrite <- !app_assoc.
    replace (requests_made w + 4) with (S (S (S (S (requests_made w))))) by lia.
    reflexivity.
  - reflexivity.
Qed.

(** C5. When the next two requests fail and the third answers 200
    with [body], [get_html] started at retry 0 returns [body] after
    three requests, having slept 1 second before the second and 2
    seconds before the third, each request preceded by the random
    pause. *)
Theorem get_html_third_attempt url w body :
  failed (requests_get url (requests_made w)) ->
  failed (requests_get url (requests_made w + 1)) ->
  requests_get url (requests_made w + 2) = Response 200 body ->
  exists events,
    get_html requests_get url 0 w
    = (Some body, World (requests_made w + 3) (trace w ++ events))
    /\ actions events
       = [SleepUniform; Get url; Sleep 1;
          SleepUniform; Get url; Sleep 2;
          SleepUniform; Get url].
Proof.
  intros H0 H1 H2.
  replace (requests_made w + 1) with (S (requests_made w)) in H1 by lia.
  replace (requests_made w + 2) with (S (S (requests_made w))) in H2 by lia.
  eexists. split.
  - rewrite get_html_retry by (assumption || (unfold max_retries; lia)).
    rewrite get_html_retry by (assumption || (unfold max_retries; simpl; lia)).
    rewrite (get_html_success _ _ _ body) by assumption.
    cbn [requests_made trace]. rewrite <- !app_assoc.
    replace (requests_made w + 3) with (S (S (S (requests_made w)))) by lia.
    reflexivity.
  - reflexivity.
Qed.

End Fetcher.

(** ** The orchestrator *)

Section Orchestrator.

Variables class_name name student_id : string.
Variable BeautifulSoup : string -> result node.
Variable requests_get : string -> nat -> response.
Variable urljoin : string -> string -> result string.

(** [get_html] reads the number of requests made and appends to the
    trace; what was traced before does not matter to it. *)
Lemma get_html_frame url retries n events :
  get_html requests_get url retries (World n events)
  = let '(html, w) := get_html requests_get url retries (World n []) in
    (html, World (requests_made w) (events ++ trace w)).
Proof.
  remember (max_retries - retries) as k eqn:Hk.
  revert retries n events Hk.
  induction k as [k IH] using lt_wf_ind. intros retries n events Hk.
  assert (Hcases : (exists text, requests_get url n = Response 200 text)
                   \/ failed (requests_get url n)).
  { destruct (requests_get url n) as [status_code text | e]; simpl; [| right; exact I].
    destruct (decide (status_code = 200%Z)) as [-> | Hne]; [left; eauto | right; exact Hne]. }
  destruct Hcases as [[text Hok] | Hfail].
  - rewrite (get_html_success _ url retries (World n events) text) by exact Hok.
    rewrite (get_html_success _ url retries (World n []) text) by exact Hok.
    reflexivity.
  - destruct (lt_dec retries max_retries) as [Hlt | Hge].
    + rewrite (get_html_retry _ url retries (World n events)) by assumption.
      rewrite (get_html_retry _ url retries (World n [])) by assumption.
      cbn [requests_made trace app].
      rewrite (IH (max_retries - (retries + 1)) ltac:(lia) (retries + 1) (S n) (events ++ _))
        by lia.
      rewrite (IH (max_retries - (retries + 1)) ltac:(lia) (retries + 1) (S n) (_ :: _))
        by lia.
      destruct (get_html requests_get url (retries + 1) (World (S n) [])) as [html w].
      cbn [requests_made trace app]. rewrite <- !app_assoc. reflexivity.
    + rewrite (get_html_give_up _ url retries (World n events)) by assumption.
      rewrite (get_html_give_up _ url retries (World n [])) by assumption.
      reflexivity.
Qed.

Lemma for_each_emit_lines {A} (l : list A) (line : A -> string) w :
  for_each_emit l (fun a => emit (Print (line a))) w
  = (tt, World (requests_made w) (trace w ++ map (fun a => Print (line a)) l)).
Proof.
  revert w. induction l as [| a l IH]; intros w; simpl.
  - rewrite app_nil_r. destruct w; reflexivity.
  - unfold mbind, Run_bind, emit at 1. rewrite IH. cbn [requests_made trace].
    rewrite <- app_assoc. reflexivity.
Qed.

(** The loop of [crawl_phase2] records the visits one after the other,
    and raises when a URL of the list is refused. *)
Lemma phase2_loop_visits total i cities all_stations w :
  (phase2_loop BeautifulSoup requests_get urljoin total i cities all_stations w).1
  = (visited ← visits BeautifulSoup requests_get urljoin cities (requests_made w);
     mret (fold_left record_visit visited all_stations)).
Proof.
  revert i all_stations w.
  induction cities as [| [city_name city_url] rest IH]; intros i all_stations w;
    [reflexivity |].
  cbn [phase2_loop visits]. unfold mbind at 1, Raising_bind at 1, of_result.
  destruct (urljoin base_url city_url) as [full_url | e]; [| reflexivity].
  cbn [mbind result_bind].
  unfold mbind at 1 2, Raising_bind at 1 2, lift at 1 2, emit at 1.
  rewrite get_html_frame.
  destruct (get_html requests_get full_url 0 (World (requests_made w) []))
    as [html w0].
  assert (Hrest : forall i' stations' w',
             requests_made w' = requests_made w0 ->
             (phase2_loop BeautifulSoup requests_get urljoin total i' rest stations' w').1
             = (visited ← visits BeautifulSoup requests_get urljoin rest
                                  (requests_made w0);
                mret (fold_left record_visit visited stations'))).
  { intros i' stations' w' Hw'. rewrite IH, Hw'. reflexivity. }
  assert (Hskip : forall i' w',
             requests_made w' = requests_made w0 ->
             extracted BeautifulSoup html city_name = None ->
             (phase2_loop BeautifulSoup requests_get urljoin total i' rest all_stations
                          w').1
             = (visited ← (visited ← visits BeautifulSoup requests_get urljoin rest
                                                (requests_made w0);
                           mret ((city_name, extracted BeautifulSoup html city_name)
                                   :: visited));
                mret (fold_left record_visit visited all_stations))).
  { intros i' w' Hw' Hnone. rewrite (Hrest _ _ _ Hw'), Hnone.
    destruct (visits BeautifulSoup requests_get urljoin rest (requests_made w0));
      reflexivity. }
  cbv beta iota. destruct html as [[| c html] |].
  - unfold mbind, Raising_bind, lift, emit. cbv beta iota.
    apply Hskip; reflexivity.
  - unfold extracted in *.
    destruct (parse_stations BeautifulSoup (String c html) city_name)
      as [printed stations].
    unfold mbind at 1, Raising_bind at 1, lift at 1. rewrite for_each_emit_lines.
    cbv beta iota. destruct stations as [| station stations].
    + unfold mbind, Raising_bind, lift, emit. cbv beta iota.
      apply Hskip; reflexivity.
    + unfold mbind at 1 2, Raising_bind at 1 2, lift at 1 2, emit at 1.
      rewrite (for_each_emit_lines _ (fun js => station_info js.1 js.2)).
      cbv beta iota. rewrite Hrest by reflexivity. cbn [snd].
      destruct (visits BeautifulSoup requests_get urljoin rest (requests_made w0));
        reflexivity.
  - unfold mbind, Raising_bind, lift, emit. cbv beta iota.
    apply Hskip; reflexivity.
Qed.

(** *** The mapping made of a list of visits *)

Lemma record_visits_snoc visited visit (all_stations : gmap string (list station)) :
  fold_left record_visit (visited ++ [visit]) all_stations
  = record_visit (fold_left record_visit visited all_stations) visit.
Proof. apply fold_left_app. Qed.

Lemma record_visits_lookup visited (all_stations : gmap string (list station))
    city_name stations :
  fold_left record_visit visited all_stations !! city_name = Some stations ->
  all_stations !! city_name = Some stations \/ (city_name, Some stations) ∈ visited.
Proof.
  induction visited as [| [n o] visited IH] using rev_ind; [left; assumption |].
  rewrite record_visits_snoc. unfold record_visit at 1. cbn [fst snd].
  destruct o as [s |].
  - destruct (decide (n = city_name)) as [-> | Hne].
    + rewrite lookup_insert_eq. intros [= ->]. right.
      apply elem_of_app. right. apply list_elem_of_here.
    + rewrite lookup_insert_ne by assumption. intros H.
      destruct (IH H) as [? | ?]; [left; assumption |].
      right. apply elem_of_app. left. assumption.
  - intros H. destruct (IH H) as [? | ?]; [left; assumption |].
    right. apply elem_of_app. left. assumption.
Qed.

Lemma record_visits_last before after (all_stations : gmap string (list station))
    city_name stations :
  (forall stations', (city_name, Some stations') ∉ after) ->
  fold_left record_visit (before ++ (city_name, Some stations) :: after) all_stations
  !! city_name = Some stations.
Proof.
  induction after as [| [n o] after IH] using rev_ind; intros Hafter.
  - rewrite record_visits_snoc. unfold record_visit. cbn [fst snd].
    apply lookup_insert_eq.
  - rewrite app_comm_cons, app_assoc, record_visits_snoc.
    assert (IH' : forall stations', (city_name, Some stations') ∉ after).
    { intros stations' Hin. apply (Hafter stations').
      apply elem_of_app. left. assumption. }
    specialize (IH IH'). unfold record_visit at 1. cbn [fst snd].
    destruct o as [s |]; [| exact IH].
    rewrite lookup_insert_ne; [exact IH |].
    intros ->. apply (Hafter s). apply elem_of_app. right. apply list_elem_of_here.
Qed.

Lemma record_visits_member visited (all_stations : gmap string (list station))
    city_name stations :
  (city_name, Some stations) ∈ visited ->
  is_Some (fold_left record_visit visited all_stations !! city_name).
Proof.
  induction visited as [| [n o] visited IH] using rev_ind; intros Hin;
    [inversion Hin |].
  rewrite record_visits_snoc. unfold record_visit at 1. cbn [fst snd].
  apply elem_of_app in Hin as [Hin | Hin].
  - destruct o as [s |]; [| exact (IH Hin)].
    destruct (decide (n = city_name)) as [-> | Hne].
    + rewrite lookup_insert_eq. eauto.
    + rewrite lookup_insert_ne by assumption. exact (IH Hin).
  - apply list_elem_of_singleton in Hin. injection Hin as <- <-.
    rewrite lookup_insert_eq. eauto.
Qed.

Lemma visits_names cities n visited :
  visits BeautifulSoup requests_get urljoin cities n = Ok visited ->
  visited.*1 = cities.*1.
Proof.
  revert n visited. induction cities as [| [city_name city_url] rest IH];
    intros n visited; [intros [= <-]; reflexivity |].
  cbn [visits]. destruct (urljoin base_url city_url) as [full_url | e];
    [| discriminate].
  cbn [mbind result_bind].
  destruct (get_html requests_get full_url 0 (World n [])) as [html w].
  destruct (visits BeautifulSoup requests_get urljoin rest (requests_made w))
    as [visited' | e] eqn:Hrest; [| discriminate].
  intros [= <-]. cbn [fmap list_fmap fst]. f_equal. exact (IH _ _ Hrest).
Qed.

Lemma visits_all_join cities n :
  all_join urljoin cities ->
  exists visited, visits BeautifulSoup requests_get urljoin cities n = Ok visited.
Proof.
  revert n. induction cities as [| [city_name city_url] rest IH]; intros n Hjoin;
    [exists []; reflexivity |].
  cbn [visits].
  destruct (Hjoin (city_name, city_url) (list_elem_of_here _ _)) as [full_url Hurl].
  cbn [snd] in Hurl. rewrite Hurl. cbn [mbind result_bind].
  destruct (get_html requests_get full_url 0 (World n [])) as [html w].
  destruct (IH (requests_made w)) as [visited ->].
  - intros c Hc. apply Hjoin. apply list_elem_of_further. exact Hc.
  - eexists. reflexivity.
Qed.

Lemma crawl_phase2_visits cities w :
  cities ≠ [] ->
  (crawl_phase2 class_name name student_id BeautifulSoup requests_get urljoin cities w).1
  = (visited ← visits BeautifulSoup requests_get urljoin cities (requests_made w);
     mret (Some (fold_left record_visit visited ∅))).
Proof.
  intros Hne. destruct cities as [| c rest]; [congruence |].
  unfold crawl_phase2. unfold mbind at 1 2 3 4, Raising_bind at 1 2 3 4, lift, emit.
  cbv beta iota.
  match goal with
  | |- context [phase2_loop ?b ?g ?u ?t ?i ?cs ?m ?w1] =>
      pose proof (phase2_loop_visits t i cs m w1) as H;
      destruct (phase2_loop b g u t i cs m w1) as [[all_stations | e] w2]
  end; cbn [fst snd requests_made] in *;
    destruct (visits BeautifulSoup requests_get urljoin (c :: rest) (requests_made w));
    simpl in *; unfold mret, result_ret in *; congruence.
Qed.

Lemma crawl_phase2_empty w :
  (crawl_phase2 class_name name student_id BeautifulSoup requests_get urljoin [] w).1
  = Ok None.
Proof. reflexivity. Qed.

(** C4. Given the empty list, [crawl_phase2] returns no mapping.  Given
    a list that is not empty and whose URLs all join to the base,
    [crawl_phase2] visits every city, in order, and returns a mapping
    whose keys are exactly the names of the cities whose fetch gave a
    body and whose extraction was not empty; every value is the station
    list of such a visit, and when the names are distinct every such
    visit is in the mapping. *)
Theorem crawl_phase2_omits_failures cities w :
  (cities = [] ->
   (crawl_phase2 class_name name student_id BeautifulSoup requests_get urljoin
                 cities w).1 = Ok None)
  /\ (cities ≠ [] ->
      all_join urljoin cities ->
      exists visited all_stations,
        visits BeautifulSoup requests_get urljoin cities (requests_made w) = Ok visited
        /\ (crawl_phase2 class_name name student_id BeautifulSoup requests_get urljoin
                         cities w).1 = Ok (Some all_stations)
        /\ visited.*1 = cities.*1
        /\ (forall city_name,
               city_name ∈ dom all_stations <->
               exists stations, (city_name, Some stations) ∈ visited)
        /\ (forall city_name stations,
               all_stations !! city_name = Some stations ->
               (city_name, Some stations) ∈ visited)
        /\ (NoDup cities.*1 ->
            forall city_name stations,
              (city_name, Some stations) ∈ visited ->
              all_stations !! city_name = Some stations)).
Proof.
  split; [intros ->; apply crawl_phase2_empty |].
  intros Hne Hjoin.
  destruct (visits_all_join cities (requests_made w) Hjoin) as [visited Hvisits].
  exists visited, (fold_left record_visit visited ∅).
  split; [exact Hvisits |].
  split; [rewrite (crawl_phase2_visits cities w Hne), Hvisits; reflexivity |].
  split; [exact (visits_names _ _ _ Hvisits) |].
  assert (Hlookup : forall city_name stations,
             fold_left record_visit visited ∅ !! city_name = Some stations ->
             (city_name, Some stations) ∈ visited).
  { intros city_name stations H.
    apply record_visits_lookup in H as [H | H]; [| exact H].
    rewrite lookup_empty in H. discriminate. }
  split; [| split; [exact Hlookup |]].
  - intros city_name. rewrite elem_of_dom. split.
    + intros [stations H]. exists stations. exact (Hlookup _ _ H).
    + intros [stations H]. eapply record_visits_member. exact H.
  - intros Hnd city_name stations Hin.
    apply list_elem_of_split in Hin as (before & after & Heq).
    rewrite Heq. apply record_visits_last. intros stations' Hin'.
    rewrite <- (visits_names _ _ _ Hvisits) in Hnd.
    rewrite Heq, fmap_app, fmap_cons in Hnd.
    apply NoDup_app in Hnd as (_ & _ & Hnd). apply NoDup_cons in Hnd as [Hnot _].
    apply Hnot. apply (list_elem_of_fmap_2 fst) in Hin'. exact Hin'.
Qed.


End Orchestrator.

(** ** The course of a fetch *)

Section Retries.

Variable requests_get : string -> nat -> response.

Lemma failed_not_ok url n text :
  requests_get url n = Response 200 text -> ~ failed (requests_get url n).
Proof. intros -> H. simpl in H. congruence. Qed.

Lemma response_cases url n :
  (exists text, requests_get url n = Response 200 text) \/ failed (requests_get url n).
Proof.
  destruct (requests_get url n) as [status_code text | e]; simpl; [| right; exact I].
  destruct (decide (status_code = 200%Z)) as [-> | Hne]; [left; eauto | right; exact Hne].
Qed.

(** The course of one call: [k] failed attempts, each followed by a
    retry, then an attempt that either succeeds or is the last one
    allowed. *)
Lemma get_html_shape url retries w :
  exists k,
    k <= max_retries - retries
    /\ (forall j, j < k -> failed (requests_get url (requests_made w + j)))
    /\ ((exists text,
            requests_get url (requests_made w + k) = Response 200 text
            /\ get_html requests_get url retries w
               = (Some text,
                  World (requests_made w + k + 1)
                        (trace w ++ retry_events requests_get url (requests_made w) retries k
                                 ++ [SleepUniform; Get url])))
        \/ (failed (requests_get url (requests_made w + k))
            /\ k = max_retries - retries
            /\ get_html requests_get url retries w
               = (None,
                  World (requests_made w + k + 1)
                        (trace w ++ retry_events requests_get url (requests_made w) retries k
                                 ++ [SleepUniform; Get url;
                                     Print (failure_line url
                                              (requests_get url (requests_made w + k)))])))).
Proof.
  remember (max_retries - retries) as m eqn:Hm.
  revert retries w Hm. induction m as [m IH] using lt_wf_ind. intros retries w Hm.
  destruct (response_cases url (requests_made w)) as [[text Hok] | Hfail].
  - exists 0. split; [lia |]. split; [intros j Hj; lia |]. left. exists text.
    rewrite !Nat.add_0_r. split; [exact Hok |].
    rewrite (get_html_success _ url retries w text Hok). simpl.
    do 2 f_equal. lia.
  - destruct (lt_dec retries max_retries) as [Hlt | Hge].
    + rewrite (get_html_retry _ url retries w Hfail Hlt).
      destruct (IH (max_retries - (retries + 1)) ltac:(lia) (retries + 1)
                   (World (S (requests_made w))
                          (trace w ++ [SleepUniform; Get url;
                                       Print (failure_line url
                                                (requests_get url (requests_made w)));
                                       Print (retry_line retries); Sleep (2 ^ retries)]))
                   eq_refl)
        as (k & Hk & Hfails & Hend).
      cbn [requests_made trace] in Hfails, Hend.
      exists (S k). split; [lia |]. split.
      * intros [| j] Hj; [rewrite Nat.add_0_r; exact Hfail |].
        replace (requests_made w + S j) with (S (requests_made w) + j) by lia.
        apply Hfails. lia.
      * replace (requests_made w + S k) with (S (requests_made w) + k) by lia.
        destruct Hend as [(text & Hok & Hrun) | (Hlast & Hkm & Hrun)]; [left | right].
        -- exists text. split; [exact Hok |]. rewrite Hrun. cbn [retry_events].
           rewrite <- !app_assoc. reflexivity.
        -- split; [exact Hlast |]. split; [lia |]. rewrite Hrun. cbn [retry_events].
           rewrite <- !app_assoc. reflexivity.
    + exists 0. split; [lia |]. split; [intros j Hj; lia |]. right.
      rewrite !Nat.add_0_r. split; [exact Hfail |]. split; [lia |].
      rewrite (get_html_give_up _ url retries w Hfail Hge). simpl.
      do 2 f_equal. lia.
Qed.

Lemma requested_app events1 events2 :
  requested (events1 ++ events2) = requested events1 ++ requested events2.
Proof. apply flat_map_app. Qed.

Lemma backoff_app events1 events2 :
  backoff (events1 ++ events2) = backoff events1 + backoff events2.
Proof. unfold backoff. rewrite map_app. apply list_sum_app. Qed.

Lemma pauses_app events1 events2 :
  pauses (events1 ++ events2) = pauses events1 + pauses events2.
Proof. unfold pauses. rewrite List.filter_app. apply length_app. Qed.

Lemma requested_retry_events url n retries k :
  requested (retry_events requests_get url n retries k) = replicate k url.
Proof.
  revert n retries. induction k as [| k IH]; intros n retries; [reflexivity |].
  cbn [retry_events]. rewrite requested_app, IH. reflexivity.
Qed.

Lemma pauses_retry_events url n retries k :
  pauses (retry_events requests_get url n retries k) = k.
Proof.
  revert n retries. induction k as [| k IH]; intros n retries; [reflexivity |].
  cbn [retry_events]. rewrite pauses_app, IH. reflexivity.
Qed.

Lemma backoff_retry_events url n retries k :
  backoff (retry_events requests_get url n retries k) + 2 ^ retries = 2 ^ (retries + k).
Proof.
  revert n retries. induction k as [| k IH]; intros n retries.
  - rewrite Nat.add_0_r. reflexivity.
  - cbn [retry_events]. rewrite backoff_app.
    specialize (IH (S n) (retries + 1)).
    replace (retries + S k) with (retries + 1 + k) by lia.
    rewrite <- IH. rewrite Nat.add_1_r, Nat.pow_succ_r'.
    unfold backoff at 1. simpl. lia.
Qed.

(** X1. [get_html] returns a body exactly when one of the attempts it
    is allowed answers 200 after failures only, and the body is that
    of the first such answer. *)
Theorem get_html_first_success url retries w body :
  (get_html requests_get url retries w).1 = Some body <->
  exists k,
    k <= max_retries - retries
    /\ (forall j, j < k -> failed (requests_get url (requests_made w + j)))
    /\ requests_get url (requests_made w + k) = Response 200 body.
Proof.
  destruct (get_html_shape url retries w) as (k & Hk & Hfails & Hend). split.
  - intros Hrun. exists k. split; [exact Hk |]. split; [exact Hfails |].
    destruct Hend as [(text & Hok & Heq) | (_ & _ & Heq)];
      rewrite Heq in Hrun; simpl in Hrun; [| discriminate].
    injection Hrun as <-. exact Hok.
  - intros (k' & Hk' & Hfails' & Hok').
    assert (k = k') as <-.
    { destruct (Nat.lt_trichotomy k k') as [Hlt | [Heq | Hgt]]; [| exact Heq |].
      - exfalso. specialize (Hfails' k Hlt).
        destruct Hend as [(text & Hok & _) | (_ & Hkm & _)]; [| lia].
        exact (failed_not_ok _ _ _ Hok Hfails').
      - exfalso. exact (failed_not_ok _ _ _ Hok' (Hfails k' Hgt)). }
    destruct Hend as [(text & Hok & Heq) | (Hlast & _ & _)].
    + rewrite Heq. simpl. congruence.
    + exfalso. exact (failed_not_ok _ _ _ Hok' Hlast).
Qed.

(** X2. [get_html] returns [None] exactly when every attempt it is
    allowed fails: the first one and one per retry that is left. *)
Theorem get_html_none_iff url retries w :
  (get_html requests_get url retries w).1 = None <->
  forall j, j <= max_retries - retries ->
            failed (requests_get url (requests_made w + j)).
Proof.
  destruct (get_html_shape url retries w) as (k & Hk & Hfails & Hend). split.
  - intros Hrun j Hj.
    destruct Hend as [(text & _ & Heq) | (Hlast & Hkm & _)];
      [rewrite Heq in Hrun; discriminate |].
    destruct (decide (j = k)) as [-> | Hne]; [exact Hlast | apply Hfails; lia].
  - intros Hall. destruct Hend as [(text & Hok & _) | (_ & _ & Heq)].
    + exfalso. exact (failed_not_ok _ _ _ Hok (Hall k Hk)).
    + rewrite Heq. reflexivity.
Qed.

(** X3. Whatever the server answers, one call of [get_html] sends at
    least one request and at most one more than the retries left, all
    of them to the URL it was given, and counts each of them. *)
Theorem get_html_requests url retries w :
  exists events,
    (get_html requests_get url retries w).2
    = World (requests_made w + length (requested events)) (trace w ++ events)
    /\ requested events = replicate (length (requested events)) url
    /\ 1 <= length (requested events) <= max_retries - retries + 1.
Proof.
  destruct (get_html_shape url retries w) as (k & Hk & _ & Hend).
  destruct Hend as [(text & _ & Heq) | (_ & _ & Heq)]; rewrite Heq; cbn [snd];
    match goal with |- context [trace w ++ ?new] => exists new end;
    rewrite requested_app, requested_retry_events, length_app, length_replicate;
    cbn [requested flat_map app length];
    (split; [f_equal; lia |]);
    (split; [| lia]);
    replace (k + 1) with (S k) by lia; rewrite replicate_S_end; reflexivity.
Qed.

(** X4. One call of [get_html] takes one random pause per request, and
    between its requests it sleeps 2^retries, 2^(retries+1), ...
    seconds: from retry 0 that is 0, 1, 3 or 7 seconds in all. *)
Theorem get_html_pacing url retries w :
  exists events,
    (get_html requests_get url retries w).2
    = World (requests_made w + length (requested events)) (trace w ++ events)
    /\ pauses events = length (requested events)
    /\ backoff events + 2 ^ retries = 2 ^ (retries + length (requested events) - 1)
    /\ backoff events + 2 ^ retries <= 2 ^ Nat.max retries max_retries.
Proof.
  destruct (get_html_shape url retries w) as (k & Hk & _ & Hend).
  assert (Hpow : 2 ^ (retries + k) <= 2 ^ Nat.max retries max_retries)
    by (apply Nat.pow_le_mono_r; lia).
  destruct Hend as [(text & _ & Heq) | (_ & _ & Heq)]; rewrite Heq; cbn [snd];
    match goal with |- context [trace w ++ ?new] => exists new end;
    rewrite requested_app, requested_retry_events, length_app, length_replicate;
    rewrite pauses_app, pauses_retry_events, backoff_app;
    pose proof (backoff_retry_events url (requests_made w) retries k) as Hb;
    cbn [requested flat_map app length];
    unfold backoff at 2 4, pauses; cbn [map list_sum List.filter length];
    replace (retries + (k + 1) - 1) with (retries + k) by lia;
    (split; [f_equal; lia |]);
    (split; [reflexivity |]); simpl (list_sum _); split; lia.
Qed.

End Retries.

(** ** The records of a station table *)

Section Records.

Variable BeautifulSoup : string -> result node.

Lemma station_rows_records headers rows :
  flat_map (station_row headers []) rows
  = map (fun row => row_record headers (Soup.find_all "td" row))
        (List.filter (fun row => (3 <=? length (Soup.find_all "td" row))%nat) rows).
Proof.
  induction rows as [| row rows IH]; [reflexivity |].
  cbn [flat_map List.filter]. rewrite IH. unfold station_row.
  destruct (3 <=? length (Soup.find_all "td" row))%nat; reflexivity.
Qed.

(** X5. [parse_stations] gives one record per row after the first that
    has at least three [td] cells, in the order of the rows; a row with
    fewer cells is passed over, so there are never more records than
    such rows. *)
Theorem parse_stations_rows html city_name soup table tables row0 data_rows :
  html ≠ "" ->
  BeautifulSoup html = Ok soup ->
  Soup.find_all "table" soup = table :: tables ->
  Soup.find_all "tr" table = row0 :: data_rows ->
  let headers := map Soup.text_strip (Soup.find_all_in ["th"; "td"] row0) in
  (parse_stations BeautifulSoup html city_name).2
  = map (fun row => row_record headers (Soup.find_all "td" row))
        (List.filter (fun row => (3 <=? length (Soup.find_all "td" row))%nat) data_rows)
  /\ length (parse_stations BeautifulSoup html city_name).2 <= length data_rows.
Proof.
  intros Hne Hsoup Htab Hrows headers.
  assert (Heq : (parse_stations BeautifulSoup html city_name).2
                = map (fun row => row_record headers (Soup.find_all "td" row))
                      (List.filter
                         (fun row => (3 <=? length (Soup.find_all "td" row))%nat)
                         data_rows)).
  { unfold parse_stations, parse_stations_try.
    apply String.eqb_neq in Hne. rewrite Hne, Hsoup. simpl. rewrite Htab, Hrows.
    destruct data_rows as [| row1 rows]; [reflexivity |].
    cbn [snd]. rewrite fold_station_row. cbn [app]. apply station_rows_records. }
  split; [exact Heq |]. rewrite Heq, length_map. apply List.filter_length_le.
Qed.

Lemma default_record_non_empty cols : default_record cols ≠ ∅.
Proof. unfold default_record. apply insert_non_empty. Qed.

Lemma row_record_non_empty headers cols : row_record headers cols ≠ ∅.
Proof.
  unfold row_record. destruct (decide (header_record headers cols = ∅)) as [He | Hne].
  - rewrite bool_decide_eq_true_2 by exact He. apply default_record_non_empty.
  - rewrite bool_decide_eq_false_2 by exact Hne. exact Hne.
Qed.

(** X6. No record returned by [parse_stations] is empty, whatever the
    markup and whatever the parser makes of it. *)
Theorem parse_stations_no_empty_record html city_name :
  Forall (fun station_data : station => station_data ≠ ∅)
         (parse_stations BeautifulSoup html city_name).2.
Proof.
  unfold parse_stations. destruct (String.eqb html ""); [constructor |].
  unfold parse_stations_try.
  destruct (BeautifulSoup html) as [soup | e]; simpl; [| constructor].
  destruct (Soup.find_all "table" soup) as [| table tables]; [constructor |].
  destruct (Soup.find_all "tr" table) as [| row0 [| row1 rows]]; [constructor .. |].
  cbn [snd]. rewrite fold_station_row. cbn [app]. rewrite station_rows_records.
  apply Forall_forall. intros station_data Hin.
  apply list_elem_of_fmap in Hin as (row & -> & _). apply row_record_non_empty.
Qed.

(** X7. The record read off the header row has exactly the labels of
    the header cells that have a cell of the row below them; a label
    further right than the row reaches is left out. *)
Theorem header_record_labels headers cols :
  dom (header_record headers cols)
  = (list_to_set (take (length cols) headers) : gset string).
Proof.
  induction cols as [| col cols IH] using rev_ind.
  - unfold header_record. simpl. rewrite dom_empty_L. reflexivity.
  - rewrite header_record_snoc, length_app. simpl length. rewrite Nat.add_1_r.
    destruct (length cols <? length headers)%nat eqn:E.
    + apply Nat.ltb_lt in E.
      destruct (lookup_lt_is_Some_2 headers _ E) as [h Hh]. rewrite Hh. simpl.
      rewrite (take_S_r _ _ _ Hh), dom_insert_L, IH, list_to_set_app_L.
      cbn [list_to_set]. rewrite (right_id_L ∅ (∪)). apply (comm_L (∪)).
    + apply Nat.ltb_ge in E. rewrite IH.
      rewrite !take_ge by lia. reflexivity.
Qed.

(** X14. When the labels of the header row are distinct, every cell of
    a row that stands below a header cell is found in the record under
    that cell's label. *)
Theorem header_record_distinct_labels headers cols i header col :
  NoDup headers ->
  headers !! i = Some header ->
  cols !! i = Some col ->
  header_record headers cols !! header = Some (Soup.text_strip col).
Proof.
  intros Hnd Hheader. revert col.
  induction cols as [| last cols IH] using rev_ind; intros col Hcol;
    [rewrite lookup_nil in Hcol; discriminate |].
  rewrite header_record_snoc.
  destruct (decide (i = length cols)) as [-> | Hne].
  - rewrite lookup_app_r in Hcol by lia. rewrite Nat.sub_diag in Hcol.
    injection Hcol as ->.
    rewrite (proj2 (Nat.ltb_lt _ _) (lookup_lt_Some _ _ _ Hheader)), Hheader.
    apply lookup_insert_eq.
  - apply lookup_lt_Some in Hcol as Hlt. rewrite length_app in Hlt. simpl in Hlt.
    rewrite lookup_app_l in Hcol by lia.
    destruct (length cols <? length headers)%nat eqn:E; [| exact (IH col Hcol)].
    apply Nat.ltb_lt in E. destruct (lookup_lt_is_Some_2 headers _ E) as [h Hh].
    rewrite Hh. simpl. rewrite lookup_insert_ne; [exact (IH col Hcol) |].
    intros ->. apply Hne. exact (NoDup_lookup _ _ _ _ Hnd Hheader Hh).
Qed.

End Records.

(** ** The names of the cities *)

Section Cities.

Variable BeautifulSoup : string -> result node.

Lemma normalized_names (cities : list city) :
  (map (fun c => (c.1, normalize_url c.2)) cities).*1 = cities.*1.
Proof.
  induction cities as [| c cities IH]; [reflexivity |].
  cbn [map fmap list_fmap fst]. f_equal. exact IH.
Qed.

Lemma for_each_app {A S} (l1 l2 : list A) (body : A -> S -> result S) s :
  for_each (l1 ++ l2) body s = (s' ← for_each l1 body s; for_each l2 body s').
Proof.
  revert s. induction l1 as [| a l1 IH]; intros s; [reflexivity |].
  cbn [app for_each]. destruct (body a s) as [t | e]; simpl; [apply IH | reflexivity].
Qed.

Lemma for_each_ext {A S} (l : list A) (body1 body2 : A -> S -> result S) s :
  (forall a t, body1 a t = body2 a t) -> for_each l body1 s = for_each l body2 s.
Proof.
  intros Hext. revert s. induction l as [| a l IH]; intros s; [reflexivity |].
  cbn [for_each]. rewrite Hext. destruct (body2 a s); simpl; [apply IH | reflexivity].
Qed.

(** A loop within a loop is one loop over the inner lists end to end. *)
Lemma for_each_nested {A B S} (f : A -> list B) (body : B -> S -> result S) l s :
  for_each l (fun a t => for_each (f a) body t) s = for_each (flat_map f l) body s.
Proof.
  revert s. induction l as [| a l IH]; intros s; [reflexivity |].
  cbn [for_each flat_map]. rewrite for_each_app.
  destruct (for_each (f a) body s) as [t | e]; simpl; [apply IH | reflexivity].
Qed.

(** A loop that skips the rows without a link is a loop over the links. *)
Lemma for_each_first_links {S} (body : node -> S -> result S) rows s :
  for_each rows
    (fun row t => match Soup.find "a" row with
                  | Some city_link => body city_link t
                  | None => mret t
                  end) s
  = for_each (flat_map (fun row => option_list (Soup.find "a" row)) rows) body s.
Proof.
  revert s. induction rows as [| row rows IH]; intros s; [reflexivity |].
  cbn [for_each flat_map]. destruct (Soup.find "a" row) as [city_link |]; simpl.
  - destruct (body city_link s) as [t | e]; simpl; [apply IH | reflexivity].
  - apply IH.
Qed.

Lemma already_added_true city_name cities :
  already_added city_name cities = true -> city_name ∈ cities.*1.
Proof.
  unfold already_added. induction cities as [| [n u] cities IH]; simpl; [discriminate |].
  intros H. apply orb_true_iff in H as [Hn | Hrest].
  - apply String.eqb_eq in Hn as ->. apply list_elem_of_here.
  - apply list_elem_of_further. exact (IH Hrest).
Qed.

(** The guarded loop over links, when it gets through, adds their
    entries one by one. *)
Lemma for_each_guarded links cities cities' :
  for_each links
    (fun link cities =>
       let city_name := Soup.text_strip link in
       city_url ← Soup.getitem link "href";
       if negb (already_added city_name cities)
       then mret (cities ++ [(city_name, city_url)])
       else mret cities)
    cities = Ok cities' ->
  exists entries,
    Forall2 link_entry links entries /\ cities' = fold_left add_new entries cities.
Proof.
  revert cities. induction links as [| link links IH]; intros cities.
  - intros [= <-]. exists []. split; [constructor | reflexivity].
  - cbn [for_each]. cbv zeta.
    destruct (Soup.getitem link "href") as [city_url | e] eqn:Hhref; [| discriminate].
    cbn [mbind result_bind].
    intros Hrest.
    assert (Hstep : (if negb (already_added (Soup.text_strip link) cities)
                     then mret (cities ++ [(Soup.text_strip link, city_url)])
                     else mret cities)
                    = Ok (add_new cities (Soup.text_strip link, city_url))).
    { unfold add_new. cbn [fst].
      destruct (already_added (Soup.text_strip link) cities); reflexivity. }
    rewrite Hstep in Hrest. cbn [mbind result_bind] in Hrest.
    destruct (IH _ Hrest) as (entries & Hentries & ->).
    exists ((Soup.text_strip link, city_url) :: entries). split; [| reflexivity].
    constructor; [split; [reflexivity | exact Hhref] | exact Hentries].
Qed.

Lemma key_cities_entries soup cities cities' :
  key_cities soup cities = Ok cities' ->
  exists entries,
    Forall2 link_entry (key_links soup) entries
    /\ cities' = fold_left add_new entries cities.
Proof.
  unfold key_cities, key_links.
  destruct (Soup.find_string key_cities_text soup) as [[p sibs] |].
  - rewrite for_each_nested. apply for_each_guarded.
  - intros [= <-]. exists []. split; [constructor | reflexivity].
Qed.

Lemma ranking_tables_entries soup cities cities' :
  ranking_tables soup cities = Ok cities' ->
  exists entries,
    Forall2 link_entry (ranking_links soup) entries
    /\ cities' = fold_left add_new entries cities.
Proof.
  unfold ranking_tables, ranking_links. intros H.
  rewrite (for_each_ext _ _
             (fun table t =>
                for_each
                  (flat_map (fun row => option_list (Soup.find "a" row))
                            (tail (Soup.find_all "tr" table)))
                  (fun link cities =>
                     let city_name := Soup.text_strip link in
                     city_url ← Soup.getitem link "href";
                     if negb (already_added city_name cities)
                     then mret (cities ++ [(city_name, city_url)])
                     else mret cities)
                  t)) in H.
  - rewrite for_each_nested in H. exact (for_each_guarded _ _ _ H).
  - intros table t. apply for_each_first_links.
Qed.

(** What adding entries one by one, new names only, comes to. *)
Lemma fold_add_new entries cities :
  exists more,
    fold_left add_new entries cities = cities ++ more
    /\ sublist more entries
    /\ NoDup more.*1
    /\ (forall city_name, city_name ∈ more.*1 -> city_name ∉ cities.*1)
    /\ (forall entry, entry ∈ entries -> entry.1 ∈ (cities ++ more).*1).
Proof.
  revert cities. induction entries as [| entry entries IH]; intros cities.
  - exists []. split; [symmetry; apply app_nil_r |]. split; [constructor |].
    split; [constructor |]. split; intros x Hx; inversion Hx.
  - cbn [fold_left]. unfold add_new at 2.
    destruct (already_added entry.1 cities) eqn:E.
    + destruct (IH cities) as (more & Heq & Hsub & Hnd & Hnew & Hall).
      exists more. split; [exact Heq |]. split; [apply sublist_cons; exact Hsub |].
      split; [exact Hnd |]. split; [exact Hnew |].
      intros x Hx. apply elem_of_cons in Hx as [-> | Hx]; [| exact (Hall x Hx)].
      rewrite fmap_app. apply elem_of_app. left. exact (already_added_true _ _ E).
    + destruct (IH (cities ++ [entry])) as (more & Heq & Hsub & Hnd & Hnew & Hall).
      apply already_added_false in E.
      assert (Hfresh : entry.1 ∉ more.*1).
      { intros Hin. apply (Hnew _ Hin). rewrite fmap_app. apply elem_of_app. right.
        apply list_elem_of_here. }
      exists (entry :: more). split; [rewrite Heq, <- app_assoc; reflexivity |].
      split; [apply sublist_skip; exact Hsub |].
      split; [rewrite fmap_cons; apply NoDup_cons; split; assumption |].
      split.
      * intros x Hx. rewrite fmap_cons in Hx.
        apply elem_of_cons in Hx as [-> | Hx]; [exact E |].
        intros Hc. apply (Hnew x Hx). rewrite fmap_app. apply elem_of_app. left.
        exact Hc.
      * intros x Hx. apply elem_of_cons in Hx as [-> | Hx].
        -- rewrite fmap_app. apply elem_of_app. right. rewrite fmap_cons.
           apply list_elem_of_here.
        -- specialize (Hall x Hx). rewrite <- app_assoc in Hall. exact Hall.
Qed.

(** X8. When [parse_cities] gets through, its list starts with the
    cities of the letter sections, in the order they were met.  It goes
    on with entries of the links of the key-cities region and then of
    the first links of the table rows, in the order of those links:
    each has the stripped text and the href of its link and is added
    when its name is not in the list yet, so that their names are
    distinct from one another and from every name before them, and no
    name of such a link is missing from the list. *)
Theorem parse_cities_appends_new_names html soup cities :
  html ≠ "" -> BeautifulSoup html = Ok soup -> collect_cities soup = Ok cities ->
  exists first entries later,
    letter_sections soup [] = Ok first
    /\ Forall2 link_entry (key_links soup ++ ranking_links soup) entries
    /\ (parse_cities BeautifulSoup html).2
       = map (fun c => (c.1, normalize_url c.2)) (first ++ later)
    /\ first ++ later = fold_left add_new entries first
    /\ sublist later entries
    /\ NoDup later.*1
    /\ (forall city_name, city_name ∈ later.*1 -> city_name ∉ first.*1)
    /\ (forall entry, entry ∈ entries -> entry.1 ∈ (first ++ later).*1).
Proof.
  intros Hne Hsoup Hcol.
  rewrite (parse_cities_ok BeautifulSoup html soup cities Hne Hsoup Hcol). cbn [snd].
  unfold collect_cities in Hcol.
  destruct (letter_sections soup []) as [first | e]; simpl in Hcol; [| discriminate].
  destruct (key_cities soup first) as [second | e] eqn:Hkey; simpl in Hcol;
    [| discriminate].
  destruct (key_cities_entries _ _ _ Hkey) as (entries2 & Hlinks2 & ->).
  destruct (ranking_tables_entries _ _ _ Hcol) as (entries3 & Hlinks3 & ->).
  rewrite <- fold_left_app.
  destruct (fold_add_new (entries2 ++ entries3) first)
    as (later & Heq & Hsub & Hnd & Hnew & Hall).
  exists first, (entries2 ++ entries3), later.
  split; [reflexivity |]. split; [apply Forall2_app; assumption |].
  split; [rewrite Heq; reflexivity |]. split; [symmetry; exact Heq |].
  repeat split; assumption.
Qed.

(** X9. When the names collected from the letter sections are distinct,
    and in particular when the page has no letter paragraph, no two
    entries of the list [parse_cities] returns have the same name. *)
Theorem parse_cities_unique_names html soup first :
  BeautifulSoup html = Ok soup ->
  letter_sections soup [] = Ok first ->
  NoDup first.*1 ->
  NoDup (parse_cities BeautifulSoup html).2.*1.
Proof.
  intros Hsoup Hfirst Hnd. unfold parse_cities.
  destruct (String.eqb html ""); [constructor |].
  unfold parse_cities_try. rewrite Hsoup. simpl. unfold collect_cities. rewrite Hfirst.
  simpl. destruct (key_cities soup first) as [second | e] eqn:Hkey; simpl;
    [| constructor].
  destruct (ranking_tables soup second) as [cities | e] eqn:Hrank; simpl;
    [| constructor].
  rewrite normalized_names.
  apply (later_heuristics_unique soup second cities (or_intror Hrank)).
  apply (later_heuristics_unique soup first second (or_introl Hkey)). exact Hnd.
Qed.

End Cities.

(** ** Requests of the two phases *)

Section Worlds.

Variables class_name name student_id : string.
Variable BeautifulSoup : string -> result node.
Variable requests_get : string -> nat -> response.
Variable urljoin : string -> string -> result string.

Lemma extends_refl w : extends w w [].
Proof. split; [symmetry; apply app_nil_r | simpl; lia]. Qed.

Lemma extends_trans w1 w2 w3 events1 events2 :
  extends w1 w2 events1 -> extends w2 w3 events2 ->
  extends w1 w3 (events1 ++ events2).
Proof.
  intros [Ht1 Hn1] [Ht2 Hn2]. split.
  - rewrite Ht2, Ht1. symmetry. apply app_assoc.
  - rewrite Hn2, Hn1, requested_app, length_app. lia.
Qed.

Lemma requested_prints {A} (line : A -> string) (l : list A) :
  requested (map (fun a => Print (line a)) l) = [].
Proof. induction l as [| a l IH]; [reflexivity | exact IH]. Qed.

Lemma extends_print line w : extends w (emit (Print line) w).2 [Print line].
Proof. split; [reflexivity | simpl; lia]. Qed.

Lemma extends_prints {A} (line : A -> string) (l : list A) w :
  extends w (for_each_emit l (fun a => emit (Print (line a))) w).2
          (map (fun a => Print (line a)) l).
Proof.
  rewrite for_each_emit_lines. split; [reflexivity |].
  rewrite requested_prints. simpl. lia.
Qed.

Lemma get_html_extends url retries w :
  exists events,
    extends w (get_html requests_get url retries w).2 events
    /\ requested events = replicate (length (requested events)) url
    /\ 1 <= length (requested events) <= max_retries - retries + 1.
Proof.
  destruct (get_html_shape requests_get url retries w) as (k & Hk & _ & Hend).
  destruct Hend as [(text & _ & Heq) | (_ & _ & Heq)]; rewrite Heq; cbn [snd];
    match goal with |- context [trace w ++ ?new] => exists new end;
    unfold extends; cbn [trace requests_made];
    rewrite requested_app, requested_retry_events, length_app, length_replicate;
    cbn [requested flat_map app length];
    (split; [split; [reflexivity | lia] |]);
    (split; [| lia]);
    replace (k + 1) with (S k) by lia; rewrite replicate_S_end; reflexivity.
Qed.

Lemma request_blocks_urls urls counts url :
  url ∈ request_blocks urls counts -> url ∈ urls.
Proof.
  unfold request_blocks. revert counts.
  induction urls as [| u urls IH]; intros [| k counts] Hin; try (inversion Hin; fail).
  cbn [zip_with concat] in Hin. apply elem_of_app in Hin as [Hin | Hin].
  - apply elem_of_replicate in Hin as [-> _]. apply list_elem_of_here.
  - apply list_elem_of_further. exact (IH _ Hin).
Qed.

(** What the second phase does to the world, city after city. *)
Lemma phase2_loop_blocks total i cities all_stations w result wf :
  phase2_loop BeautifulSoup requests_get urljoin total i cities all_stations w
  = (result, wf) ->
  exists urls counts events,
    extends w wf events
    /\ Forall2 (fun (c : city) url => urljoin base_url c.2 = Ok url)
               (take (length urls) cities) urls
    /\ Forall2 (fun (url : string) k => 1 <= k <= max_retries + 1) urls counts
    /\ requested events = request_blocks urls counts
    /\ forall all_stations', result = Ok all_stations' -> length urls = length cities.
Proof.
  revert i all_stations w.
  induction cities as [| [city_name city_url] rest IH]; intros i all_stations w.
  { intros [= <- <-]. exists [], [], []. split; [apply extends_refl |].
    repeat split; constructor. }
  cbn [phase2_loop]. unfold mbind at 1, Raising_bind at 1, of_result.
  destruct (urljoin base_url city_url) as [full_url | e] eqn:Hjoin.
  2:{ intros [= <- <-]. exists [], [], []. split; [apply extends_refl |].
      split; [constructor |]. split; [constructor |]. split; [reflexivity |].
      intros r. discriminate. }
  unfold mbind at 1 2, Raising_bind at 1 2, lift at 1 2.
  pose proof (extends_print
                ("[" +:+ PyStr.of_nat i +:+ "/" +:+ PyStr.of_nat total
                 +:+ "] 正在爬取城市: " +:+ city_name
                 +:+ " (" +:+ full_url +:+ ")") w) as Hstart.
  destruct (emit _ w) as [[] w1]. cbn [snd] in Hstart. cbv beta iota.
  destruct (get_html_extends full_url 0 w1) as (fetch & Hfetch & Hurls & Hcount).
  destruct (get_html requests_get full_url 0 w1) as [html w2].
  cbn [snd] in Hfetch. cbv beta iota.
  pose proof (extends_trans _ _ _ _ _ Hstart Hfetch) as Hw2.
  assert (Hrest : forall w3 prints,
             extends w2 w3 prints -> requested prints = [] ->
             forall i' stations',
             phase2_loop BeautifulSoup requests_get urljoin total i' rest stations' w3
             = (result, wf) ->
             exists urls counts events,
               extends w wf events
               /\ Forall2 (fun (c : city) url => urljoin base_url c.2 = Ok url)
                          (take (length urls) ((city_name, city_url) :: rest)) urls
               /\ Forall2 (fun (url : string) k => 1 <= k <= max_retries + 1)
                          urls counts
               /\ requested events = request_blocks urls counts
               /\ forall all_stations',
                   result = Ok all_stations' ->
                   length urls = length ((city_name, city_url) :: rest)).
  { intros w3 prints Hw3 Hprints i' stations' Hrun.
    destruct (IH i' stations' w3 Hrun)
      as (urls & counts & events & Hext & Hj & Hc & Hreq & Hok).
    exists (full_url :: urls), (length (requested fetch) :: counts). eexists.
    split; [exact (extends_trans _ _ _ _ _ Hw2 (extends_trans _ _ _ _ _ Hw3 Hext)) |].
    split; [cbn [length take]; constructor; [exact Hjoin | exact Hj] |].
    split; [constructor; [unfold max_retries in *; lia | exact Hc] |].
    split.
    - rewrite !requested_app, Hprints, Hreq. cbn [requested flat_map app].
      unfold request_blocks. cbn [zip_with concat]. rewrite <- Hurls. reflexivity.
    - intros r Hr. cbn [length]. f_equal. exact (Hok r Hr). }
  destruct html as [[| c html] |].
  - unfold mbind, Raising_bind, lift.
    pose proof (extends_print ("获取城市 " +:+ city_name +:+ " 页面失败，跳过该城市") w2)
      as Hp.
    destruct (emit _ w2) as [[] w3]. cbn [snd] in Hp. cbv beta iota.
    exact (Hrest w3 _ Hp eq_refl _ _).
  - destruct (parse_stations BeautifulSoup (String c html) city_name)
      as [printed stations].
    unfold mbind at 1, Raising_bind at 1, lift at 1.
    pose proof (extends_prints (fun line => line) printed w2) as Hprinted.
    destruct (for_each_emit printed _ w2) as [[] w3]. cbn [snd] in Hprinted.
    cbv beta iota. destruct stations as [| station stations].
    + unfold mbind, Raising_bind, lift.
      pose proof (extends_print ("未能解析到城市 " +:+ city_name +:+ " 的监测站数据") w3)
        as Hp.
      destruct (emit _ w3) as [[] w4]. cbn [snd] in Hp. cbv beta iota.
      refine (Hrest w4 _ (extends_trans _ _ _ _ _ Hprinted Hp) _ _ _).
      rewrite requested_app, requested_prints. reflexivity.
    + unfold mbind at 1 2, Raising_bind at 1 2, lift at 1 2.
      pose proof (extends_print
                    ("城市 " +:+ city_name +:+ " 共有 "
                     +:+ PyStr.of_nat (length (station :: stations)) +:+ " 个监测站:")
                    w3) as Hp.
      destruct (emit _ w3) as [[] w4]. cbn [snd] in Hp. cbv beta iota.
      pose proof (extends_prints
                    (fun js : nat * gmap string string => station_info js.1 js.2)
                    (combine (seq 1 (length (station :: stations)))
                             (station :: stations)) w4) as Hlines.
      destruct (for_each_emit _ _ w4) as [[] w5]. cbn [snd] in Hlines.
      cbv beta iota.
      refine (Hrest w5 _
                (extends_trans _ _ _ _ _ Hprinted (extends_trans _ _ _ _ _ Hp Hlines))
                _ _ _).
      rewrite !requested_app, !requested_prints. reflexivity.
  - unfold mbind, Raising_bind, lift.
    pose proof (extends_print ("获取城市 " +:+ city_name +:+ " 页面失败，跳过该城市") w2)
      as Hp.
    destruct (emit _ w2) as [[] w3]. cbn [snd] in Hp. cbv beta iota.
    exact (Hrest w3 _ Hp eq_refl _ _).
Qed.

(** What the second phase does to the world, from its banner on. *)
Lemma crawl_phase2_blocks cities w result wf :
  crawl_phase2 class_name name student_id BeautifulSoup requests_get urljoin cities w
  = (result, wf) ->
  exists urls counts events,
    extends w wf events
    /\ Forall2 (fun (c : city) url => urljoin base_url c.2 = Ok url)
               (take (length urls) cities) urls
    /\ Forall2 (fun (url : string) k => 1 <= k <= max_retries + 1) urls counts
    /\ requested events = request_blocks urls counts
    /\ forall returned, result = Ok returned -> length urls = length cities.
Proof.
  unfold crawl_phase2. unfold mbind at 1 2, Raising_bind at 1 2, lift at 1 2.
  pose proof (extends_print
                (PyStr.chr 10 +:+ "阶段二：" +:+ class_name +:+ "+" +:+ name
                 +:+ "+" +:+ student_id) w) as H1.
  destruct (emit _ w) as [[] w1]. cbn [snd] in H1. cbv beta iota.
  pose proof (extends_print "爬取结果：" w1) as H2.
  destruct (emit _ w1) as [[] w2]. cbn [snd] in H2. cbv beta iota.
  destruct cities as [| c rest].
  - unfold mbind, Raising_bind, lift, mret, Raising_ret.
    pose proof (extends_print "没有城市数据可爬取" w2) as H3.
    destruct (emit _ w2) as [[] w3]. cbn [snd] in H3. cbv beta iota.
    intros [= <- <-]. exists [], []. eexists.
    split; [exact (extends_trans _ _ _ _ _ H1 (extends_trans _ _ _ _ _ H2 H3)) |].
    split; [constructor |]. split; [constructor |]. split; reflexivity.
  - unfold mbind, Raising_bind, lift, mret, Raising_ret.
    match goal with
    | |- context [emit (Print ?line) w2] => pose proof (extends_print line w2) as H3
    end.
    destruct (emit _ w2) as [[] w3]. cbn [snd] in H3. cbv beta iota.
    destruct (phase2_loop _ _ _ _ _ _ _ w3) as [looped w4] eqn:Hloop.
    destruct (phase2_loop_blocks _ _ _ _ _ _ _ Hloop)
      as (urls & counts & events & Hext & Hj & Hc & Hreq & Hok).
    destruct looped as [all_stations | e]; intros [= <- <-];
      exists urls, counts; eexists;
      (split;
       [exact (extends_trans _ _ _ _ _ H1
                 (extends_trans _ _ _ _ _ H2 (extends_trans _ _ _ _ _ H3 Hext))) |]);
      rewrite !requested_app; cbn [requested flat_map app];
      (split; [exact Hj |]); (split; [exact Hc |]); (split; [exact Hreq |]).
    + intros returned _. exact (Hok all_stations eq_refl).
    + intros returned. discriminate.
Qed.


Lemma visits_contribute cities n visited city_name stations :
  visits BeautifulSoup requests_get urljoin cities n = Ok visited ->
  (city_name, Some stations) ∈ visited ->
  (exists city_url, (city_name, city_url) ∈ cities)
  /\ exists html, stations = (parse_stations BeautifulSoup html city_name).2
                  /\ stations ≠ [].
Proof.
  revert n visited. induction cities as [| [city_name' city_url] rest IH];
    intros n visited; [intros [= <-] Hin; inversion Hin |].
  cbn [visits]. destruct (urljoin base_url city_url) as [full_url | e];
    [| discriminate].
  cbn [mbind result_bind].
  destruct (get_html requests_get full_url 0 (World n [])) as [html w1].
  destruct (visits BeautifulSoup requests_get urljoin rest (requests_made w1))
    as [visited' | e] eqn:Hrest; [| discriminate].
  intros [= <-] Hin. apply elem_of_cons in Hin as [Heq | Hin].
  - injection Heq as <- Hex. split; [exists city_url; apply list_elem_of_here |].
    unfold extracted in Hex. destruct html as [html |]; [| discriminate].
    exists html.
    destruct (parse_stations BeautifulSoup html city_name).2; [discriminate |].
    injection Hex as ->. split; [reflexivity | discriminate].
  - destruct (IH _ _ Hrest Hin) as [[u Hu] Hhtml]. split; [| exact Hhtml].
    exists u. apply list_elem_of_further. exact Hu.
Qed.

(** X11. Every entry of the mapping [crawl_phase2] returns belongs to a
    city of its list, and its value is what [parse_stations] made of
    some page for that name, a list that is not empty. *)
Theorem crawl_phase2_entries cities w all_stations city_name stations :
  (crawl_phase2 class_name name student_id BeautifulSoup requests_get urljoin
                cities w).1 = Ok (Some all_stations) ->
  all_stations !! city_name = Some stations ->
  (exists city_url, (city_name, city_url) ∈ cities)
  /\ stations ≠ []
  /\ (exists html, stations = (parse_stations BeautifulSoup html city_name).2).
Proof.
  intros Hrun Hlookup.
  assert (Hne : cities ≠ []).
  { intros ->. rewrite crawl_phase2_empty in Hrun. discriminate. }
  rewrite (crawl_phase2_visits class_name name student_id BeautifulSoup requests_get
             urljoin cities w Hne) in Hrun.
  destruct (visits BeautifulSoup requests_get urljoin cities (requests_made w))
    as [visited | e] eqn:Hvisits; [| discriminate].
  injection Hrun as <-.
  apply record_visits_lookup in Hlookup as [Hlookup | Hin];
    [rewrite lookup_empty in Hlookup; discriminate |].
  destruct (visits_contribute _ _ _ _ _ Hvisits Hin) as (Hcity & html & Heq & Hstations).
  split; [exact Hcity |]. split; [exact Hstations |]. exists html. exact Heq.
Qed.

Lemma parse_cities_rooted html city_name url :
  (city_name, url) ∈ (parse_cities BeautifulSoup html).2 ->
  PyStr.startswith url "/" = true.
Proof.
  unfold parse_cities. destruct (String.eqb html ""); [intros H; inversion H |].
  unfold parse_cities_try. destruct (BeautifulSoup html) as [soup | e]; simpl;
    [| intros H; inversion H].
  destruct (collect_cities soup) as [cities | e]; simpl; [| intros H; inversion H].
  intros H. apply list_elem_of_fmap in H as [[n u] [Heq _]].
  injection Heq as -> ->. apply startswith_normalize_url.
Qed.

Lemma get_html_result_frame url retries w :
  (get_html requests_get url retries w).1
  = (get_html requests_get url retries (World (requests_made w) [])).1.
Proof.
  destruct w as [n events]. rewrite get_html_frame. cbn [requests_made].
  destruct (get_html requests_get url retries (World n [])). reflexivity.
Qed.

Lemma for_each_raising_quiet {A} (l : list A) (body : A -> Raising unit) :
  (forall a w result wf,
      body a w = (result, wf) ->
      exists prints, extends w wf prints /\ requested prints = []) ->
  forall w result wf,
    for_each_raising l body w = (result, wf) ->
    exists prints, extends w wf prints /\ requested prints = [].
Proof.
  intros Hbody. induction l as [| a l IH]; intros w result wf.
  { intros [= <- <-]. exists []. split; [apply extends_refl | reflexivity]. }
  cbn [for_each_raising]. unfold mbind, Raising_bind.
  destruct (body a w) as [[[] | e] w1] eqn:Hstep;
    destruct (Hbody _ _ _ _ Hstep) as (first & Hfirst & Hnone).
  - intros Hrun. destruct (IH _ _ _ Hrun) as (prints & Hext & Hreq). eexists.
    split; [exact (extends_trans _ _ _ _ _ Hfirst Hext) |].
    rewrite requested_app, Hnone, Hreq. reflexivity.
  - intros [= <- <-]. exists first. split; assumption.
Qed.

(** The loop of lines 241-243 prints and sends nothing, whether it
    gets through or not. *)
Lemma phase1_lines_extend (l : list (nat * city)) w result wf :
  for_each_raising l
    (fun ic =>
       full_url ← of_result (urljoin base_url ic.2.2);
       lift (emit (Print (PyStr.of_nat ic.1 +:+ ". " +:+ ic.2.1 +:+ ": "
                          +:+ full_url)))) w = (result, wf) ->
  exists prints, extends w wf prints /\ requested prints = [].
Proof.
  apply for_each_raising_quiet. clear. intros ic w result wf.
  unfold mbind, Raising_bind, of_result, lift.
  destruct (urljoin base_url ic.2.2) as [full_url | e].
  - pose proof (extends_print
                  (PyStr.of_nat ic.1 +:+ ". " +:+ ic.2.1 +:+ ": " +:+ full_url) w) as Hp.
    destruct (emit _ w) as [[] w1]. cbn [snd] in Hp.
    intros [= <- <-]. eexists. split; [exact Hp | reflexivity].
  - intros [= <- <-]. exists []. split; [apply extends_refl | reflexivity].
Qed.

(** The first phase: what it does to the world and what it returns. *)
Lemma crawl_phase1_spec w :
  exists events,
    extends w (crawl_phase1 class_name name student_id BeautifulSoup requests_get
                            urljoin w).2 events
    /\ requested events = replicate (length (requested events)) base_url
    /\ 1 <= length (requested events) <= max_retries + 1
    /\ forall cities,
        (crawl_phase1 class_name name student_id BeautifulSoup requests_get
                      urljoin w).1 = Ok (Some cities) ->
        cities ≠ []
        /\ exists html,
            (get_html requests_get base_url 0 (World (requests_made w) [])).1
            = Some html
            /\ html ≠ ""
            /\ cities = (parse_cities BeautifulSoup html).2.
Proof.
  destruct (crawl_phase1 class_name name student_id BeautifulSoup requests_get
                         urljoin w) as [result wf] eqn:Hrun.
  cbn [fst snd]. revert Hrun.
  unfold crawl_phase1. unfold mbind at 1 2 3, Raising_bind at 1 2 3, lift at 1 2 3.
  pose proof (extends_print
                ("阶段一：" +:+ class_name +:+ "+" +:+ name +:+ "+" +:+ student_id) w)
    as H1.
  destruct (emit _ w) as [[] w1]. cbn [snd] in H1. cbv beta iota.
  pose proof (extends_print "爬取结果：" w1) as H2.
  destruct (emit _ w1) as [[] w2]. cbn [snd] in H2. cbv beta iota.
  assert (Hn : requests_made w2 = requests_made w).
  { destruct H1 as [_ E1]. destruct H2 as [_ E2]. rewrite E2, E1. simpl. lia. }
  pose proof (get_html_result_frame base_url 0 w2) as Hbody. rewrite Hn in Hbody.
  destruct (get_html_extends base_url 0 w2) as (fetch & Hfetch & Hurls & Hcount).
  destruct (get_html requests_get base_url 0 w2) as [html w3].
  cbn [fst snd] in Hfetch, Hbody. cbv beta iota.
  pose proof (extends_trans _ _ _ _ _ H1 (extends_trans _ _ _ _ _ H2 Hfetch)) as Hw3.
  assert (Hdone : forall prints,
             extends w3 wf prints -> requested prints = [] ->
             (forall cities, result = Ok (Some cities) ->
                cities ≠ []
                /\ exists html,
                    (get_html requests_get base_url 0 (World (requests_made w) [])).1
                    = Some html
                    /\ html ≠ ""
                    /\ cities = (parse_cities BeautifulSoup html).2) ->
             exists events,
               extends w wf events
               /\ requested events = replicate (length (requested events)) base_url
               /\ 1 <= length (requested events) <= max_retries + 1
               /\ forall cities,
                   result = Ok (Some cities) ->
                   cities ≠ []
                   /\ exists html,
                       (get_html requests_get base_url 0
                                 (World (requests_made w) [])).1 = Some html
                       /\ html ≠ ""
                       /\ cities = (parse_cities BeautifulSoup html).2).
  { intros prints Hwf Hprints Hresult.
    eexists. split; [exact (extends_trans _ _ _ _ _ Hw3 Hwf) |].
    rewrite !requested_app, Hprints. cbn [requested flat_map app].
    rewrite app_nil_r. split; [exact Hurls |]. split; [lia | exact Hresult]. }
  destruct html as [[| c html] |].
  - unfold mbind, Raising_bind, lift, mret, Raising_ret.
    pose proof (extends_print "获取首页失败" w3) as Hp.
    destruct (emit _ w3) as [[] w4]. cbn [snd] in Hp. cbv beta iota.
    intros [= <- <-]. apply (Hdone _ Hp eq_refl). discriminate.
  - destruct (parse_cities BeautifulSoup (String c html)) as [printed cities] eqn:Hparse.
    unfold mbind at 1, Raising_bind at 1, lift at 1.
    pose proof (extends_prints (fun line => line) printed w3) as Hprinted.
    destruct (for_each_emit printed _ w3) as [[] w4]. cbn [snd] in Hprinted.
    cbv beta iota. destruct cities as [| entry cities].
    + unfold mbind, Raising_bind, lift, mret, Raising_ret.
      pose proof (extends_print "未能爬取到城市数据" w4) as Hp.
      destruct (emit _ w4) as [[] w5]. cbn [snd] in Hp. cbv beta iota.
      intros [= <- <-].
      refine (Hdone _ (extends_trans _ _ _ _ _ Hprinted Hp) _ _); [| discriminate].
      rewrite requested_app, requested_prints. reflexivity.
    + unfold mbind at 1 2, Raising_bind at 1 2, lift at 1, mret, Raising_ret.
      match goal with
      | |- context [emit (Print ?line) w4] => pose proof (extends_print line w4) as Hp
      end.
      destruct (emit _ w4) as [[] w5]. cbn [snd] in Hp. cbv beta iota.
      destruct (for_each_raising _ _ w5) as [listed w6] eqn:Hlist.
      destruct (phase1_lines_extend _ _ _ _ Hlist) as (lines & Hlines & Hnone).
      destruct listed as [[] | e]; intros [= <- <-];
        (refine (Hdone _
                   (extends_trans _ _ _ _ _ Hprinted
                      (extends_trans _ _ _ _ _ Hp Hlines)) _ _);
         [rewrite !requested_app, requested_prints, Hnone; reflexivity |]).
      * intros cities' [= <-]. split; [discriminate |].
        exists (String c html). split; [symmetry; exact Hbody |].
        split; [discriminate |]. rewrite Hparse. reflexivity.
      * discriminate.
  - unfold mbind, Raising_bind, lift, mret, Raising_ret.
    pose proof (extends_print "获取首页失败" w3) as Hp.
    destruct (emit _ w3) as [[] w4]. cbn [snd] in Hp. cbv beta iota.
    intros [= <- <-]. apply (Hdone _ Hp eq_refl). discriminate.
Qed.

(** X12. When [crawl_phase1] returns a list, the list is not empty, it
    is what [parse_cities] made of the body that [get_html] fetched
    from the base URL, a body that was not empty, and every href in it
    starts with a slash. *)
Theorem crawl_phase1_cities w cities :
  (crawl_phase1 class_name name student_id BeautifulSoup requests_get urljoin w).1
  = Ok (Some cities) ->
  cities ≠ []
  /\ (exists html,
         (get_html requests_get base_url 0 (World (requests_made w) [])).1 = Some html
         /\ html ≠ ""
         /\ cities = (parse_cities BeautifulSoup html).2)
  /\ forall city_name url,
      (city_name, url) ∈ cities -> PyStr.startswith url "/" = true.
Proof.
  intros Hrun.
  destruct (crawl_phase1_spec w) as (_ & _ & _ & _ & Hresult).
  destruct (Hresult cities Hrun) as (Hne & html & Hbody & Hhtml & Heq).
  split; [exact Hne |]. split; [exists html; repeat split; assumption |].
  intros city_name url Hin. rewrite Heq in Hin. exact (parse_cities_rooted _ _ _ Hin).
Qed.

(** X13. A whole run of [main] first fetches the base URL, with one to
    four requests; every later request goes to the base URL joined with
    a path that starts with a slash. *)
Theorem main_requests w :
  exists events first later,
    extends w (main class_name name student_id BeautifulSoup requests_get urljoin w).2
            events
    /\ requested events = first ++ later
    /\ first = replicate (length first) base_url
    /\ 1 <= length first <= max_retries + 1
    /\ Forall (fun url => exists path,
                   PyStr.startswith path "/" = true /\ urljoin base_url path = Ok url)
              later.
Proof.
  unfold main, main_try, mbind, Raising_bind, lift, mret, Raising_ret.
  pose proof (extends_print "开始执行阶段一爬取..." w) as H1.
  destruct (emit _ w) as [[] w1]. cbn [snd] in H1. cbv beta iota.
  destruct (crawl_phase1_spec w1) as (phase1 & Hphase1 & Hurls & Hcount & Hresult).
  destruct (crawl_phase1 _ _ _ _ _ _ w1) as [result w2]. cbn [fst snd] in *.
  pose proof (extends_trans _ _ _ _ _ H1 Hphase1) as Hw2.
  assert (Hend : forall line w3 tail,
             extends w2 w3 tail ->
             Forall (fun url => exists path,
                         PyStr.startswith path "/" = true
                         /\ urljoin base_url path = Ok url) (requested tail) ->
             exists events first later,
               extends w (emit (Print line) w3).2 events
               /\ requested events = first ++ later
               /\ first = replicate (length first) base_url
               /\ 1 <= length first <= max_retries + 1
               /\ Forall (fun url => exists path,
                              PyStr.startswith path "/" = true
                              /\ urljoin base_url path = Ok url) later).
  { intros line w3 tail Hw3 Htail.
    eexists. exists (requested phase1), (requested tail). split;
      [exact (extends_trans _ _ _ _ _ Hw2
                (extends_trans _ _ _ _ _ Hw3 (extends_print line w3))) |].
    rewrite !requested_app. cbn [requested flat_map app]. rewrite !app_nil_r.
    split; [reflexivity |]. split; [exact Hurls |]. split; [exact Hcount | exact Htail]. }
  assert (Hdone : forall w3 tail,
             extends w2 w3 tail ->
             Forall (fun url => exists path,
                         PyStr.startswith path "/" = true
                         /\ urljoin base_url path = Ok url) (requested tail) ->
             exists events first later,
               extends w (let (r, w') :=
                            let '(a, w') := emit (Print (PyStr.chr 10 +:+ "爬取完成！")) w3
                            in (Ok a, w') in
                          match r with
                          | Ok _ => (tt, w')
                          | Raise e =>
                              emit (Print (PyStr.chr 10 +:+ "程序执行过程中发生异常: "
                                           +:+ str_exn e)) w'
                          end).2 events
               /\ requested events = first ++ later
               /\ first = replicate (length first) base_url
               /\ 1 <= length first <= max_retries + 1
               /\ Forall (fun url => exists path,
                              PyStr.startswith path "/" = true
                              /\ urljoin base_url path = Ok url) later).
  { intros w3 tail Hw3 Htail.
    destruct (Hend (PyStr.chr 10 +:+ "爬取完成！") w3 tail Hw3 Htail)
      as (events & first & later & Hext & Hrest).
    exists events, first, later. split; [| exact Hrest].
    destruct (emit _ w3) as [[] w4]. exact Hext. }
  destruct result as [[[| entry cities] |] | e]; cbv beta iota.
  - exact (Hdone w2 [] (extends_refl w2) (List.Forall_nil _)).
  - pose proof (extends_print (PyStr.chr 10 +:+ "开始执行阶段二爬取...") w2) as H2.
    destruct (emit _ w2) as [[] w3]. cbn [snd] in H2. cbv beta iota.
    destruct (crawl_phase2 _ _ _ _ _ _ (entry :: cities) w3) as [returned w4] eqn:Hrun.
    destruct (crawl_phase2_blocks _ _ _ _ Hrun)
      as (urls & counts & phase2 & Hphase2 & Hj & _ & Hreq & _).
    destruct (Hresult _ eq_refl) as (_ & html & _ & _ & Heq).
    assert (Hlater : Forall (fun url => exists path,
                                 PyStr.startswith path "/" = true
                                 /\ urljoin base_url path = Ok url)
                            (requested ([Print (PyStr.chr 10 +:+ "开始执行阶段二爬取...")]
                                          ++ phase2))).
    { rewrite requested_app, Hreq. cbn [requested flat_map app].
      apply Forall_forall. intros url Hin. apply request_blocks_urls in Hin.
      apply list_elem_of_lookup in Hin as [k Hk].
      destruct (Forall2_lookup_r _ _ _ _ _ Hj Hk) as ([city_name path] & Hc & Hjoin).
      exists path. split; [| exact Hjoin].
      apply list_elem_of_lookup_2 in Hc.
      assert (Hin : (city_name, path) ∈ entry :: cities).
      { exact (subseteq_take _ _ _ Hc). }
      rewrite Heq in Hin. exact (parse_cities_rooted _ _ _ Hin). }
    destruct returned as [returned | e]; cbv beta iota.
    + exact (Hdone w4 _ (extends_trans _ _ _ _ _ H2 Hphase2) Hlater).
    + exact (Hend _ w4 _ (extends_trans _ _ _ _ _ H2 Hphase2) Hlater).
  - exact (Hdone w2 [] (extends_refl w2) (List.Forall_nil _)).
  - exact (Hend _ w2 [] (extends_refl w2) (List.Forall_nil _)).
Qed.

End Worlds.

(** ** The tree of a page *)

Section Tree.

Variable BeautifulSoup : string -> result node.

Lemma walk_Tag sibs name attrs contents :
  Soup.walk sibs (Tag name attrs contents)
  = walk_children (Tag name attrs contents) sibs contents.
Proof.
  cbn [Soup.walk]. generalize (Tag name attrs contents) as parent. intros parent.
  induction contents as [| c r IH]; [reflexivity |].
  cbn [walk_children]. rewrite <- IH. reflexivity.
Qed.

Lemma walk_children_fst parent sibs l :
  map fst (walk_children parent sibs l) = map fst (walk_children parent [] l).
Proof.
  induction l as [| c r IH]; [reflexivity |].
  cbn [walk_children map fst]. rewrite !map_app, IH. reflexivity.
Qed.

Lemma walk_fst sibs n : map fst (Soup.walk sibs n) = Soup.descendants n.
Proof.
  unfold Soup.descendants. destruct n as [s | name attrs contents]; [reflexivity |].
  rewrite !walk_Tag. apply walk_children_fst.
Qed.

Lemma descendants_Tag name attrs contents :
  Soup.descendants (Tag name attrs contents)
  = flat_map (fun c => c :: Soup.descendants c) contents.
Proof.
  unfold Soup.descendants at 1. rewrite walk_Tag.
  generalize (Tag name attrs contents) as parent. intros parent.
  induction contents as [| c r IH]; [reflexivity |].
  cbn [walk_children map fst flat_map]. rewrite map_app, walk_fst, IH. reflexivity.
Qed.

Lemma descendants_trans n c d :
  In c (Soup.descendants n) -> In d (Soup.descendants c) -> In d (Soup.descendants n).
Proof.
  revert c d. induction n as [s | name attrs contents IH] using node_children_ind;
    intros c d Hc Hd; [inversion Hc |].
  rewrite descendants_Tag in *. apply in_flat_map in Hc as (x & Hx & Hc).
  apply in_flat_map. exists x. split; [exact Hx |].
  destruct Hc as [<- | Hc]; [right; exact Hd |].
  right. rewrite Forall_forall in IH.
  apply (IH x (proj2 (list_elem_of_In _ _) Hx) c d Hc Hd).
Qed.

(** Where the parents and the following siblings of a walk live. *)
Lemma walk_context n :
  forall sibs e p ps,
    In (e, (p, ps)) (Soup.walk sibs n) ->
    (p = n \/ In p (Soup.descendants n))
    /\ forall y, In y ps -> In y sibs \/ In y (Soup.descendants n).
Proof.
  induction n as [s | name attrs contents IH] using node_children_ind;
    intros sibs e p ps Hin; [inversion Hin |].
  rewrite walk_Tag in Hin. rewrite descendants_Tag.
  set (parent := Tag name attrs contents) in *.
  assert (Haux : forall l,
             (forall x, In x l -> In x contents) ->
             In (e, (p, ps)) (walk_children parent sibs l) ->
             (p = parent
              \/ In p (flat_map (fun c => c :: Soup.descendants c) contents))
             /\ forall y, In y ps ->
                          In y sibs
                          \/ In y (flat_map (fun c => c :: Soup.descendants c) contents)).
  { induction l as [| c r IHl]; intros Hsub Hl; [inversion Hl |].
    cbn [walk_children] in Hl. destruct Hl as [Heq | Hl].
    - injection Heq as <- <- <-. split; [left; reflexivity |]. intros y Hy. left. exact Hy.
    - apply in_app_or in Hl as [Hl | Hl].
      + rewrite Forall_forall in IH.
        assert (Hc : In c contents) by (apply Hsub; left; reflexivity).
        destruct (IH c (proj2 (list_elem_of_In _ _) Hc) r e p ps Hl) as [Hp Hps].
        split.
        * right. apply in_flat_map. exists c. split; [exact Hc |].
          destruct Hp as [-> | Hp]; [left; reflexivity | right; exact Hp].
        * intros y Hy. right. destruct (Hps y Hy) as [Hr | Hd].
          -- apply in_flat_map. exists y. split; [| left; reflexivity].
             apply Hsub. right. exact Hr.
          -- apply in_flat_map. exists c. split; [exact Hc | right; exact Hd].
      + apply IHl; [| exact Hl]. intros x Hx. apply Hsub. right. exact Hx. }
  exact (Haux contents (fun x Hx => Hx) Hin).
Qed.

Lemma find_all_below name n d :
  In d (Soup.find_all name n) ->
  In d (Soup.descendants n) /\ Soup.has_name [name] d = true.
Proof. unfold Soup.find_all, Soup.find_all_in. intros H. apply filter_In in H. exact H. Qed.

Lemma for_each_ok {A S} (l : list A) (body : A -> S -> result S) s :
  (forall a t, In a l -> exists t', body a t = Ok t') ->
  exists s', for_each l body s = Ok s'.
Proof.
  revert s. induction l as [| a l IH]; intros s Hbody; [exists s; reflexivity |].
  cbn [for_each]. destruct (Hbody a s (or_introl eq_refl)) as [t' ->]. simpl.
  apply IH. intros b t Hb. apply Hbody. right. exact Hb.
Qed.

(** X15. On a page where every [a] element has an [href], the [try]
    block of [parse_cities] runs to its end: nothing is printed and the
    list returned is the collected one, normalised. *)
Theorem parse_cities_complete html soup :
  html ≠ "" ->
  BeautifulSoup html = Ok soup ->
  anchors_have_href soup ->
  exists cities,
    collect_cities soup = Ok cities
    /\ parse_cities BeautifulSoup html
       = ([], map (fun c => (c.1, normalize_url c.2)) cities).
Proof.
  intros Hne Hsoup Hhref.
  assert (Hlinks : forall n, n = soup \/ In n (Soup.descendants soup) ->
             forall link, In link (Soup.find_all "a" n) ->
                          exists href, Soup.getitem link "href" = Ok href).
  { intros n Hn link Hlink. apply find_all_below in Hlink as [Hbelow Hname].
    apply Hhref; [| exact Hname].
    destruct Hn as [-> | Hn]; [exact Hbelow | exact (descendants_trans _ _ _ Hn Hbelow)]. }
  assert (H1 : exists first, letter_sections soup [] = Ok first).
  { unfold letter_sections. apply for_each_ok. intros city_section t Hsec.
    apply for_each_ok. intros link u Hlink.
    unfold Soup.find_all_string_parents in Hsec.
    apply in_map_iff in Hsec as ([e [p ps]] & <- & He). apply filter_In in He as [He _].
    apply walk_context in He as [Hp _]. cbn [fst snd] in Hlink.
    destruct (Hlinks p Hp link Hlink) as [href ->]. simpl. eauto. }
  destruct H1 as [first H1].
  assert (H2 : exists second, key_cities soup first = Ok second).
  { unfold key_cities.
    destruct (Soup.find_string key_cities_text soup) as [[p sibs] |] eqn:Hfind;
      [| eexists; reflexivity].
    apply for_each_ok. intros sib t Hsib. apply for_each_ok. intros link u Hlink.
    unfold Soup.find_string in Hfind.
    destruct (map snd _) as [| [p' sibs'] entries] eqn:Hmap in Hfind; [discriminate |].
    injection Hfind as -> ->.
    assert (Hentry : In (p, sibs) (map snd (List.filter
              (fun e => match e.1 with
                        | NavigableString s => key_cities_text (Some s)
                        | Tag _ _ _ => false
                        end) (Soup.walk [] soup))))
      by (rewrite Hmap; left; reflexivity).
    apply in_map_iff in Hentry as ([e [p0 ps0]] & Heq & He). cbn [snd] in Heq.
    injection Heq as -> ->. apply filter_In in He as [He _].
    apply walk_context in He as [_ Hps].
    unfold Soup.next_sibling_tags in Hsib. apply filter_In in Hsib as [Hsib _].
    destruct (Hps sib Hsib) as [[] | Hbelow].
    destruct (Hlinks sib (or_intror Hbelow) link Hlink) as [href ->]. simpl.
    destruct (negb (already_added (Soup.text_strip link) u)); eauto. }
  destruct H2 as [second H2].
  assert (H3 : exists cities, ranking_tables soup second = Ok cities).
  { unfold ranking_tables. apply for_each_ok. intros table t Htable.
    apply for_each_ok. intros row u Hrow.
    destruct (Soup.find "a" row) as [city_link |] eqn:Hfind; [| eauto].
    apply find_all_below in Htable as [Htable _].
    assert (Hrow' : In row (Soup.find_all "tr" table)).
    { destruct (Soup.find_all "tr" table); [inversion Hrow | right; exact Hrow]. }
    apply find_all_below in Hrow' as [Hrow' _].
    pose proof (descendants_trans _ _ _ Htable Hrow') as Hbelow.
    assert (Hlink : In city_link (Soup.find_all "a" row)).
    { unfold Soup.find in Hfind. destruct (Soup.find_all "a" row); [discriminate |].
      injection Hfind as ->. left. reflexivity. }
    destruct (Hlinks row (or_intror Hbelow) city_link Hlink) as [href ->]. simpl.
    destruct (negb (already_added (Soup.text_strip city_link) u)); eauto. }
  destruct H3 as [cities H3].
  assert (Hcol : collect_cities soup = Ok cities).
  { unfold collect_cities. rewrite H1. simpl. rewrite H2. simpl. exact H3. }
  exists cities. split; [exact Hcol |].
  exact (parse_cities_ok BeautifulSoup html soup cities Hne Hsoup Hcol).
Qed.

End Tree.

(** ** Concrete runs *)

Lemma parse_cities_href_rooted_witness :
  ("Beijing", "/city/beijing") ∈ (parse_cities (Pages.parser Pages.section) Pages.section_html).2
  /\ PyStr.startswith "/city/beijing" "/" = true.
Proof.
  assert (H : ("Beijing", "/city/beijing")
              ∈ (parse_cities (Pages.parser Pages.section) Pages.section_html).2).
  { vm_compute. apply list_elem_of_here. }
  split; [exact H |].
  exact (proj1 (parse_cities_href_rooted (Pages.parser Pages.section) Pages.section_html)
               "Beijing" "/city/beijing" H).
Defined.

Lemma parse_stations_short_table_witness :
  (parse_stations (Pages.parser Pages.header_only) Pages.header_only_html "Beijing").2 = [].
Proof.
  apply parse_stations_short_table. right. exists Pages.header_only.
  split; [reflexivity |]. right.
  eexists _, _. split; [vm_compute; reflexivity | simpl; lia].
Defined.

Lemma extraction_failure_contained_witness :
  parse_cities (Pages.parser Pages.anchor) Pages.anchor_html
  = (["解析城市列表时发生异常: 'href'"], []).
Proof.
  apply (extraction_failure_contained
           (Pages.parser Pages.anchor) Pages.anchor_html "" (KeyError "href")).
  - discriminate.
  - vm_compute. reflexivity.
Defined.

(** C1. The first heuristic appends every link it meets, with no look
    at the names collected so far: on a page whose letter paragraphs
    share their parent, [parse_cities] returns each city of that parent
    once per paragraph. *)
Theorem parse_cities_repeats_letter_sections :
  (parse_cities (Pages.parser Pages.landing) Pages.landing_html).2
  = [("Anshan", "/air/anshan"); ("Beijing", "/air/beijing");
     ("Anshan", "/air/anshan"); ("Beijing", "/air/beijing")]
  /\ ~ NoDup (parse_cities (Pages.parser Pages.landing) Pages.landing_html).2.*1.
Proof.
  assert (H : (parse_cities (Pages.parser Pages.landing) Pages.landing_html).2
              = [("Anshan", "/air/anshan"); ("Beijing", "/air/beijing");
                 ("Anshan", "/air/anshan"); ("Beijing", "/air/beijing")])
    by (vm_compute; reflexivity).
  split; [exact H |]. rewrite H. simpl. intros Hnd.
  apply NoDup_cons in Hnd as [Hnot _]. apply Hnot.
  apply list_elem_of_further, list_elem_of_here.
Qed.

Lemma parse_stations_default_columns_witness :
  (parse_stations (Pages.parser Pages.bare_header) Pages.bare_header_html "Beijing").2
  = [default_record [Pages.td "StationX"; Pages.td "50"; Pages.td "Good"; Pages.td "7"]]
  /\ default_record [Pages.td "StationX"; Pages.td "50"; Pages.td "Good"; Pages.td "7"]
     !! "PM10" = Some "N/A".
Proof.
  pose proof (parse_stations_default_columns
                (Pages.parser Pages.bare_header) Pages.bare_header_html "Beijing"
                Pages.bare_header
                (Pages.elem "table"
                   [Pages.elem "tr" [];
                    Pages.elem "tr" [Pages.td "StationX"; Pages.td "50";
                                     Pages.td "Good"; Pages.td "7"]])
                []
                (Pages.elem "tr" [])
                [Pages.elem "tr" [Pages.td "StationX"; Pages.td "50";
                                  Pages.td "Good"; Pages.td "7"]]) as H.
  destruct H as [Hrows Hfields];
    [discriminate | reflexivity | vm_compute; reflexivity
     | vm_compute; reflexivity | vm_compute; reflexivity |].
  split; [exact Hrows |].
  destruct (Hfields
              (Pages.elem "tr" [Pages.td "StationX"; Pages.td "50";
                                Pages.td "Good"; Pages.td "7"])
              (Pages.td "StationX") (Pages.td "50") (Pages.td "Good"))
    as (_ & _ & _ & _ & _ & Hpm10 & _); [reflexivity | reflexivity | reflexivity |].
  exact Hpm10.
Defined.

Lemma header_record_last_label_witness :
  header_record ["Station"; "AQI"; "AQI"]
                [Pages.td "StationX"; Pages.td "50"; Pages.td "61"] !! "AQI"
  = Some "61".
Proof.
  apply (proj1 (header_record_last_label
                  ["Station"; "AQI"; "AQI"]
                  [Pages.td "StationX"; Pages.td "50"; Pages.td "61"])).
  exists 2, (Pages.td "61").
  split; [reflexivity |]. split; [reflexivity |]. split; [vm_compute; reflexivity |].
  intros j Hlt Hlen. simpl in Hlen. lia.
Defined.

Lemma get_html_retries_exhausted_witness :
  exists events,
    get_html Pages.always_500 "https://www.air-level.com" 0 (World 0 [])
    = (None, World 4 ([] ++ events))
    /\ actions events
       = [SleepUniform; Get "https://www.air-level.com"; Sleep 1;
          SleepUniform; Get "https://www.air-level.com"; Sleep 2;
          SleepUniform; Get "https://www.air-level.com"; Sleep 4;
          SleepUniform; Get "https://www.air-level.com"].
Proof.
  apply (get_html_retries_exhausted Pages.always_500 "https://www.air-level.com"
                                    (World 0 [])).
  intros k _. simpl. discriminate.
Defined.

Lemma get_html_third_attempt_witness :
  exists events,
    get_html Pages.third_time "https://www.air-level.com" 0 (World 0 [])
    = (Some (Pages.city_html "North"), World 3 ([] ++ events))
    /\ actions events
       = [SleepUniform; Get "https://www.air-level.com"; Sleep 1;
          SleepUniform; Get "https://www.air-level.com"; Sleep 2;
          SleepUniform; Get "https://www.air-level.com"].
Proof.
  apply (get_html_third_attempt Pages.third_time "https://www.air-level.com"
                                (World 0 []) (Pages.city_html "North")).
  - exact I.
  - exact I.
  - reflexivity.
Defined.

Lemma crawl_phase2_omits_failures_witness :
  exists all_stations,
    (crawl_phase2 "class" "name" "id" Pages.city_parser Pages.first_city_down
                  Pages.join_rooted
                  [("Anshan", "/air/anshan"); ("Beijing", "/air/beijing")]
                  (World 0 [])).1 = Ok (Some all_stations)
    /\ ("Anshan" ∉ dom all_stations)
    /\ all_stations !! "Beijing" = Some [Pages.city_record "North"].
Proof.
  destruct (proj2 (crawl_phase2_omits_failures
                     "class" "name" "id" Pages.city_parser Pages.first_city_down
                     Pages.join_rooted
                     [("Anshan", "/air/anshan"); ("Beijing", "/air/beijing")]
                     (World 0 [])))
    as (visited & all_stations & Hvisits & Hrun & _ & Hdom & _ & Hall).
  - discriminate.
  - intros c _. eexists. reflexivity.
  - assert (Hvisited : visited = [("Anshan", None);
                                  ("Beijing", Some [Pages.city_record "North"])]).
    { revert Hvisits. vm_compute. intros [= <-]. reflexivity. }
    subst visited.
    exists all_stations. split; [exact Hrun |]. split.
    + intros Hin. apply Hdom in Hin as [stations Hin].
      apply elem_of_cons in Hin as [Hin | Hin]; [discriminate |].
      apply elem_of_cons in Hin as [Hin | Hin]; [discriminate | inversion Hin].
    + apply Hall.
      * vm_compute. apply NoDup_cons. split.
        -- intros Hin. apply list_elem_of_singleton in Hin. discriminate.
        -- apply NoDup_singleton.
      * apply list_elem_of_further, list_elem_of_here.
Defined.

(** Where [crawl_phase2] returns no mapping: given the empty list it
    returns [None] (line 258); and when [urljoin] refuses the address
    of a city (line 267), as it does for [//[], the run ends there with
    what [urljoin] raised, whatever the cities before it gave. *)
Lemma crawl_phase2_without_mapping :
  (crawl_phase2 "class" "name" "id" Pages.city_parser Pages.two_pages
                Pages.join_checked [] (World 0 [])).1 = Ok None
  /\ (crawl_phase2 "class" "name" "id" Pages.city_parser Pages.two_pages
                   Pages.join_checked
                   [("Anshan", "/air/anshan"); ("Beijing", "//[")]
                   (World 0 [])).1 = Raise (ValueError "Invalid IPv6 URL")
  /\ (get_html Pages.two_pages "https://www.air-level.com/air/anshan" 0 (World 0 [])).1
     = Some (Pages.city_html "North")
  /\ (parse_stations Pages.city_parser (Pages.city_html "North") "Anshan").2
     = [Pages.city_record "North"].
Proof. vm_compute. repeat split; reflexivity. Qed.



Lemma get_html_first_success_witness :
  (get_html Pages.third_time "https://www.air-level.com" 0 (World 0 [])).1
  = Some (Pages.city_html "North").
Proof.
  apply (proj2 (get_html_first_success Pages.third_time "https://www.air-level.com" 0
                  (World 0 []) (Pages.city_html "North"))).
  exists 2. split; [unfold max_retries; lia |]. split; [| reflexivity].
  intros j Hj. destruct j as [| [| j]]; [exact I | exact I | lia].
Defined.

Lemma get_html_none_iff_witness :
  (get_html Pages.always_500 "https://www.air-level.com" 0 (World 0 [])).1 = None.
Proof.
  apply (proj2 (get_html_none_iff Pages.always_500 "https://www.air-level.com" 0
                  (World 0 []))).
  intros j _. simpl. discriminate.
Defined.

Lemma parse_stations_rows_witness :
  (parse_stations Pages.city_parser (Pages.city_html "North") "Anshan").2
  = [row_record ["Station"; "AQI"; "Level"]
                [Pages.td "North"; Pages.td "50"; Pages.td "Good"]]
  /\ length (parse_stations Pages.city_parser (Pages.city_html "North") "Anshan").2 <= 1.
Proof.
  refine (parse_stations_rows
            Pages.city_parser (Pages.city_html "North") "Anshan"
            (Pages.city_page "North")
            (Pages.elem "table"
               [Pages.elem "tr" [Pages.th "Station"; Pages.th "AQI"; Pages.th "Level"];
                Pages.elem "tr" [Pages.td "North"; Pages.td "50"; Pages.td "Good"]])
            []
            (Pages.elem "tr" [Pages.th "Station"; Pages.th "AQI"; Pages.th "Level"])
            [Pages.elem "tr" [Pages.td "North"; Pages.td "50"; Pages.td "Good"]]
            _ _ _ _).
  - discriminate.
  - reflexivity.
  - vm_compute. reflexivity.
  - vm_compute. reflexivity.
Defined.

Lemma header_record_distinct_labels_witness :
  header_record ["Station"; "AQI"; "Level"]
                [Pages.td "North"; Pages.td "50"; Pages.td "Good"] !! "AQI"
  = Some (Soup.text_strip (Pages.td "50")).
Proof.
  apply (header_record_distinct_labels
           ["Station"; "AQI"; "Level"]
           [Pages.td "North"; Pages.td "50"; Pages.td "Good"] 1 "AQI" (Pages.td "50")).
  - repeat (apply NoDup_cons_2;
            [intros H; repeat (apply elem_of_cons in H as [H | H]; [discriminate |]);
             inversion H |]).
    apply NoDup_nil_2.
  - reflexivity.
  - reflexivity.
Defined.

Lemma parse_cities_appends_new_names_witness :
  exists first entries later,
    letter_sections Landing.soup [] = Ok first
    /\ Forall2 link_entry (key_links Landing.soup ++ ranking_links Landing.soup) entries
    /\ (parse_cities (Pages.parser Landing.soup) Landing.markup).2
       = map (fun c => (c.1, normalize_url c.2)) (first ++ later)
    /\ first ++ later = fold_left add_new entries first
    /\ sublist later entries /\ NoDup later.*1
    /\ (forall city_name, city_name ∈ later.*1 -> city_name ∉ first.*1)
    /\ (forall entry, entry ∈ entries -> entry.1 ∈ (first ++ later).*1).
Proof.
  apply (parse_cities_appends_new_names
           (Pages.parser Landing.soup) Landing.markup Landing.soup
           [("Anshan", "/air/anshan"); ("Beijing", "air/beijing");
            ("Chengdu", "air/chengdu")]).
  - discriminate.
  - reflexivity.
  - vm_compute. reflexivity.
Defined.

Lemma parse_cities_unique_names_witness :
  NoDup (parse_cities (Pages.parser Landing.soup) Landing.markup).2.*1.
Proof.
  apply (parse_cities_unique_names
           (Pages.parser Landing.soup) Landing.markup Landing.soup
           [("Anshan", "/air/anshan")]).
  - reflexivity.
  - vm_compute. reflexivity.
  - apply NoDup_singleton.
Defined.

Lemma crawl_phase2_entries_witness :
  (exists city_url,
      ("Beijing", city_url) ∈ [("Anshan", "/air/anshan"); ("Beijing", "/air/beijing")])
  /\ [Pages.city_record "North"] ≠ []
  /\ exists html,
      [Pages.city_record "North"] = (parse_stations Pages.city_parser html "Beijing").2.
Proof.
  apply (crawl_phase2_entries
           "class" "name" "id" Pages.city_parser Pages.first_city_down Pages.join_rooted
           [("Anshan", "/air/anshan"); ("Beijing", "/air/beijing")] (World 0 [])
           (<["Beijing" := [Pages.city_record "North"]]> ∅)
           "Beijing" [Pages.city_record "North"]).
  - vm_compute. reflexivity.
  - apply lookup_insert_eq.
Defined.

Lemma crawl_phase1_cities_witness :
  [("Beijing", "/city/beijing")] ≠ []
  /\ (exists html,
         (get_html Pages.two_pages base_url 0 (World 0 [])).1 = Some html
         /\ html ≠ ""
         /\ [("Beijing", "/city/beijing")]
            = (parse_cities (Pages.parser Pages.section) html).2)
  /\ forall city_name url,
      (city_name, url) ∈ [("Beijing", "/city/beijing")] ->
      PyStr.startswith url "/" = true.
Proof.
  apply (crawl_phase1_cities
           "class" "name" "id" (Pages.parser Pages.section) Pages.two_pages
           Pages.join_rooted (World 0 []) [("Beijing", "/city/beijing")]).
  vm_compute. reflexivity.
Defined.

Lemma parse_cities_complete_witness :
  exists cities,
    collect_cities Landing.soup = Ok cities
    /\ parse_cities (Pages.parser Landing.soup) Landing.markup
       = ([], map (fun c => (c.1, normalize_url c.2)) cities).
Proof.
  apply (parse_cities_complete
           (Pages.parser Landing.soup) Landing.markup Landing.soup).
  - discriminate.
  - reflexivity.
  - intros d Hd Hname. vm_compute in Hd.
    repeat (destruct Hd as [<- | Hd];
            [first [discriminate Hname | eexists; vm_compute; reflexivity] |]).
    inversion Hd.
Defined.
